(** * s3_csv_handler.py: a shallow embedding and its checked properties

    The script moves CSV files between the local file system and an S3
    bucket.  Its pure part is string manipulation (splitting a path of the
    form [s3://bucket/key], computing a destination key, filtering a
    listing); everything else is a call to a collaborator (the operating
    system, boto3, pandas, the logger) wrapped in [try]/[except].

    Modelling choices.
    - A Python [str] is a Stdlib [string]; characters are [ascii], and
      [lower] maps the letters [A]-[Z].
    - Python exceptions are values of [exn]; a computation either returns
      a value or raises ([Res]).
    - Effectful functions are state-passing functions over a [World]
      holding the local file system, the trace of calls made to the
      collaborators, the log and standard output.
    - What a collaborator answers is given by an [Env] of oracles; every
      oracle sees the whole current [World], hence the whole history of
      calls, so that any deterministic backend is an instance.
    - [os.path] is [posixpath]. *)

From Stdlib Require Import ZArith Ascii String List Bool Lia.
From stdpp Require Import base gmap strings list pretty.


(** ** Exceptions and results *)

(** The exceptions the script can meet.  [ClientError] is
    [botocore.exceptions.ClientError], [ValueError] and [IndexError] are
    the builtins, [OtherError cls msg] is any other class deriving from
    [Exception]; [SystemExit], which [sys.exit] raises, and
    [KeyboardInterrupt] derive from [BaseException] only. *)
Inductive exn : Type :=
| ClientError (msg : string)
| ValueError (msg : string)
| IndexError (msg : string)
| OtherError (cls msg : string)
| SystemExit (code : Z)
| KeyboardInterrupt.

(** [isinstance(e, Exception)] *)
Definition is_Exception (e : exn) : bool :=
  match e with
  | SystemExit _ | KeyboardInterrupt => false
  | _ => true
  end.

(** [isinstance(e, ClientError)] *)
Definition is_ClientError (e : exn) : bool :=
  match e with
  | ClientError _ => true
  | _ => false
  end.

(** [str(e)], as it is interpolated in the log lines. *)
Definition exn_str (e : exn) : string :=
  match e with
  | ClientError m | ValueError m | IndexError m | OtherError _ m => m
  | SystemExit c => pretty c
  | KeyboardInterrupt => ""
  end.

Inductive Res (A : Type) : Type :=
| Val (a : A)
| Raise (e : exn).
Arguments Val {A} a.
Arguments Raise {A} e.

Definition res_bind {A B : Type} (r : Res A) (k : A → Res B) : Res B :=
  match r with
  | Val a => k a
  | Raise e => Raise e
  end.

(** ** The fragment of [str] the script uses *)

Module PyStr.

(** [bool(s)]: a string is true when it is not empty. *)
Definition truthy (s : string) : bool :=
  match s with
  | EmptyString => false
  | String _ _ => true
  end.

(** [s[n:]] for [n >= 0] *)
Fixpoint slice_from (n : nat) (s : string) : string :=
  match n, s with
  | O, _ => s
  | S n', String _ s' => slice_from n' s'
  | S _, EmptyString => EmptyString
  end.

(** [s.startswith(p)] *)
Definition startswith (s p : string) : bool := String.prefix p s.

(** [s.endswith(suf)] *)
Definition endswith (s suf : string) : bool :=
  (String.length suf <=? String.length s)%nat
  && String.eqb (slice_from (String.length s - String.length suf) s) suf.

(** [s.split(sep, maxsplit)] for a one-character separator and
    [maxsplit >= 0]: at most [maxsplit] cuts, leftmost first. *)
Fixpoint split (sep : ascii) (maxsplit : nat) (s : string) {struct s}
  : list string :=
  match maxsplit with
  | O => [s]
  | S m =>
      match s with
      | EmptyString => [EmptyString]
      | String c s' =>
          if Ascii.eqb c sep then EmptyString :: split sep m s'
          else match split sep maxsplit s' with
               | h :: t => String c h :: t
               | [] => [String c EmptyString]
               end
      end
  end.

(** [c.lower()] on the ASCII range *)
Definition lower_char (c : ascii) : ascii :=
  let n := nat_of_ascii c in
  if (65 <=? n)%nat && (n <=? 90)%nat then ascii_of_nat (n + 32) else c.

(** [s.lower()] *)
Fixpoint lower (s : string) : string :=
  match s with
  | EmptyString => EmptyString
  | String c s' => String (lower_char c) (lower s')
  end.

(** [s.rfind(c)]: the highest index of [c] in [s], or [-1]. *)
Fixpoint rfind (c : ascii) (s : string) : Z :=
  match s with
  | EmptyString => (-1)%Z
  | String d s' =>
      let r := rfind c s' in
      if (0 <=? r)%Z then (r + 1)%Z
      else if Ascii.eqb d c then 0%Z else (-1)%Z
  end.

(** [c in s] *)
Fixpoint contains (c : ascii) (s : string) : bool :=
  match s with
  | EmptyString => false
  | String d s' => Ascii.eqb d c || contains c s'
  end.

(** [l[i]], raising [IndexError] out of range *)
Definition index {A : Type} (l : list A) (i : nat) : Res A :=
  match l !! i with
  | Some a => Val a
  | None => Raise (IndexError "list index out of range")
  end.

End PyStr.

(** ** [parse_s3_path] *)

Definition parse_s3_path (s3_path : string) : Res (string * string) :=
  if negb (PyStr.startswith s3_path "s3://") then
    Raise (ValueError "S3 path must start with 's3://'")
  else
    let path_without_prefix := PyStr.slice_from 5 s3_path in
    let parts := PyStr.split "/" 1 path_without_prefix in
    res_bind (PyStr.index parts 0) (λ bucket_name,
    res_bind (if (1 <? length parts)%nat then PyStr.index parts 1
              else Val "") (λ key,
    Val (bucket_name, key))).

(** ** [posixpath] *)

Module posixpath.

(** [i = p.rfind('/') + 1; return p[i:]] *)
Definition basename (p : string) : string :=
  let i := (PyStr.rfind "/" p + 1)%Z in
  PyStr.slice_from (Z.to_nat i) p.

(** [os.path.join(a, b)] with one component to add. *)
Definition join (a b : string) : string :=
  if PyStr.startswith b "/" then b
  else if negb (PyStr.truthy a) || PyStr.endswith a "/" then a +:+ b
  else a +:+ "/" +:+ b.

End posixpath.

(** ** The world the script runs in *)

(** A call made to a collaborator: the operating system ([os.makedirs])
    or the storage backend (boto3). *)
Inductive Call : Type :=
| CallMakedirs (name : string)
| CallClient (service : string)
| CallUploadFile (Filename Bucket Key : string)
| CallDownloadFile (Bucket Key Filename : string)
| CallListObjectsV2 (Bucket Prefix : string)
| CallGetObject (Bucket Key : string)
| CallPutObject (Bucket Key Body : string).

Definition is_backend_call (c : Call) : bool :=
  match c with
  | CallMakedirs _ => false
  | _ => true
  end.

Inductive Level : Type := INFO | ERROR.

(** A pandas [DataFrame], as far as the script looks at it: named columns
    and rows of cells. *)
Record DataFrame : Type := mkDataFrame {
  columns : list string;
  rows : list (list string)
}.

(** [len(df)] *)
Definition df_len (df : DataFrame) : nat := length (rows df).

(** The answer of [list_objects_v2]: a dict that has a ['Contents'] entry
    (a list of dicts with a ['Key']) or lacks it. *)
Record S3Object : Type := mkS3Object { Key : string }.
Record ListResponse : Type := mkListResponse {
  Contents : option (list S3Object)
}.

(** The state an operation runs in and changes.  [fs] holds the paths for
    which [os.path.exists] answers true; a successful [makedirs] or
    download adds the path it was given (the intermediate directories
    [makedirs] may create are not tracked), and nothing in the script
    removes a path. *)
Record World : Type := mkWorld {
  fs : gset string;            (* the paths that exist locally *)
  calls : list Call;           (* calls made so far, oldest first *)
  log : list (Level * string); (* records emitted through [logger] *)
  stdout : list string         (* lines printed *)
}.

Definition add_call (c : Call) (w : World) : World :=
  mkWorld (fs w) (calls w ++ [c]) (log w) (stdout w).
Definition add_log (r : Level * string) (w : World) : World :=
  mkWorld (fs w) (calls w) (log w ++ [r]) (stdout w).
Definition add_line (l : string) (w : World) : World :=
  mkWorld (fs w) (calls w) (log w) (stdout w ++ [l]).
Definition add_path (p : string) (w : World) : World :=
  mkWorld ({[p]} ∪ fs w) (calls w) (log w) (stdout w).

(** What the collaborators answer.  [None] is a call that returns, [Some e]
    one that raises [e]. *)
Record Env : Type := mkEnv {
  os_mkdir : World → string → option exn;
  boto3_client : World → string → option exn;
  s3_upload_file : World → string → string → string → option exn;
  s3_download_file : World → string → string → string → option exn;
  s3_list_objects_v2 : World → string → string → Res ListResponse;
  s3_get_object : World → string → string → Res string;
  s3_put_object : World → string → string → string → option exn;
  pd_read_csv : string → Res DataFrame;
  df_to_csv : DataFrame → bool → Res string
}.

(** ** Computations: state passing with exceptions *)

Definition M (A : Type) : Type := World → Res A * World.

#[global] Instance M_ret : MRet M := λ A a w, (Val a, w).
#[global] Instance M_bind : MBind M := λ A B k m w,
  match m w with
  | (Val a, w') => k a w'
  | (Raise e, w') => (Raise e, w')
  end.

Definition raise {A : Type} (e : exn) : M A := λ w, (Raise e, w).

Definition lift {A : Type} (r : Res A) : M A := λ w, (r, w).

(** [except cls as e: handler] clauses, tried in order. *)
Definition Handler (A : Type) : Type := (exn → bool) * (exn → M A).

Fixpoint dispatch {A : Type} (hs : list (Handler A)) (e : exn)
  : option (M A) :=
  match hs with
  | [] => None
  | (matches, h) :: hs' => if matches e then Some (h e) else dispatch hs' e
  end.

(** [try: body except ...]; an exception no clause matches goes on to the
    caller. *)
Definition try_except {A : Type} (body : M A) (hs : list (Handler A)) : M A :=
  λ w,
    match body w with
    | (Val a, w') => (Val a, w')
    | (Raise e, w') =>
        match dispatch hs e with
        | Some h => h w'
        | None => (Raise e, w')
        end
    end.

(** A call to a collaborator that returns nothing: it is recorded, then
    raises or takes effect. *)
Definition call_unit (c : Call) (answer : World → option exn)
    (effect : World → World) : M unit :=
  λ w,
    match answer w with
    | Some e => (Raise e, add_call c w)
    | None => (Val (), effect (add_call c w))
    end.

Definition call_val {A : Type} (c : Call) (answer : World → Res A) : M A :=
  λ w, (answer w, add_call c w).

(** [logger.info(msg)], [logger.error(msg)] *)
Definition logger (lvl : Level) (msg : string) : M unit :=
  λ w, (Val (), add_log (lvl, msg) w).

(** [print(line)] *)
Definition print (line : string) : M unit :=
  λ w, (Val (), add_line line w).

(** [os.path.exists(p)]: never raises on a string; the empty path does not
    exist. *)
Definition os_path_exists (p : string) : M bool :=
  λ w, (Val (PyStr.truthy p && bool_decide (p ∈ fs w)), w).

(** [os.makedirs(name)] with [exist_ok=False]: the empty name and an
    existing name are refused, otherwise the operating system decides. *)
Definition os_makedirs (E : Env) (name : string) : M unit :=
  call_unit (CallMakedirs name)
    (λ w, if negb (PyStr.truthy name) then
            Some (OtherError "FileNotFoundError" "[Errno 2] No such file or directory: ''")
          else if bool_decide (name ∈ fs w) then
            Some (OtherError "FileExistsError" ("[Errno 17] File exists: '" +:+ name +:+ "'"))
          else os_mkdir E w name)
    (add_path name).

Section Operations.

Variable E : Env.

Definition client (service : string) : M unit :=
  call_unit (CallClient service) (λ w, boto3_client E w service) id.

Definition upload_file (Filename Bucket Key : string) : M unit :=
  call_unit (CallUploadFile Filename Bucket Key)
    (λ w, s3_upload_file E w Filename Bucket Key) id.

Definition download_file (Bucket Key Filename : string) : M unit :=
  call_unit (CallDownloadFile Bucket Key Filename)
    (λ w, s3_download_file E w Bucket Key Filename) (add_path Filename).

Definition list_objects_v2 (Bucket Prefix : string) : M ListResponse :=
  call_val (CallListObjectsV2 Bucket Prefix)
    (λ w, s3_list_objects_v2 E w Bucket Prefix).

Definition get_object (Bucket Key : string) : M string :=
  call_val (CallGetObject Bucket Key) (λ w, s3_get_object E w Bucket Key).

Definition put_object (Bucket Key Body : string) : M unit :=
  call_unit (CallPutObject Bucket Key Body)
    (λ w, s3_put_object E w Bucket Key Body) id.

(** *** [upload_csv_to_s3] *)

(** The [try] block. *)
Definition upload_csv_to_s3_try (local_file_path s3_path : string)
  : M bool :=
  '(bucket_name, key_prefix) ← lift (parse_s3_path s3_path);
  let filename := posixpath.basename local_file_path in
  let key_prefix :=
    if PyStr.truthy key_prefix && negb (PyStr.endswith key_prefix "/")
    then key_prefix +:+ "/" else key_prefix in
  let s3_key := key_prefix +:+ filename in
  client "s3";;
  logger INFO ("Uploading " +:+ local_file_path +:+ " to s3://"
               +:+ bucket_name +:+ "/" +:+ s3_key);;
  upload_file local_file_path bucket_name s3_key;;
  logger INFO ("Upload successful: s3://" +:+ bucket_name +:+ "/"
               +:+ s3_key);;
  mret true.

(** The [except] clauses. *)
Definition upload_csv_to_s3_except : list (Handler bool) :=
  [ (is_ClientError, λ e,
       logger ERROR ("Error uploading file to S3: " +:+ exn_str e);;
       mret false);
    (is_Exception, λ e,
       logger ERROR ("Unexpected error: " +:+ exn_str e);;
       mret false) ].

Definition upload_csv_to_s3 (local_file_path s3_path : string) : M bool :=
  found ← os_path_exists local_file_path;
  if negb found then
    logger ERROR ("Local file not found: " +:+ local_file_path);;
    mret false
  else
    try_except (upload_csv_to_s3_try local_file_path s3_path)
               upload_csv_to_s3_except.

(** *** [download_csv_from_s3] *)

Definition download_csv_from_s3_try (s3_path local_directory : string)
  : M (option string) :=
  '(bucket_name, s3_key) ← lift (parse_s3_path s3_path);
  found ← os_path_exists local_directory;
  (if negb found then os_makedirs E local_directory else mret ());;
  let filename := posixpath.basename s3_key in
  let local_file_path := posixpath.join local_directory filename in
  client "s3";;
  logger INFO ("Downloading s3://" +:+ bucket_name +:+ "/" +:+ s3_key
               +:+ " to " +:+ local_file_path);;
  download_file bucket_name s3_key local_file_path;;
  logger INFO ("Download successful: " +:+ local_file_path);;
  mret (Some local_file_path).

Definition download_csv_from_s3_except : list (Handler (option string)) :=
  [ (is_ClientError, λ e,
       logger ERROR ("Error downloading file from S3: " +:+ exn_str e);;
       mret None);
    (is_Exception, λ e,
       logger ERROR ("Unexpected error: " +:+ exn_str e);;
       mret None) ].

Definition download_csv_from_s3 (s3_path local_directory : string)
  : M (option string) :=
  try_except (download_csv_from_s3_try s3_path local_directory)
             download_csv_from_s3_except.

(** *** [list_csv_files_in_s3] *)

(** The body of the [for obj in response['Contents']] loop. *)
Definition list_step (bucket_name : string) (csv_files : list string)
    (obj : S3Object) : list string :=
  let key := Key obj in
  if PyStr.endswith (PyStr.lower key) ".csv"
  then csv_files ++ ["s3://" +:+ bucket_name +:+ "/" +:+ key]
  else csv_files.

Definition list_csv_files_in_s3_try (s3_path : string) : M (list string) :=
  '(bucket_name, prefix) ← lift (parse_s3_path s3_path);
  client "s3";;
  logger INFO ("Listing CSV files in s3://" +:+ bucket_name +:+ "/"
               +:+ prefix);;
  response ← list_objects_v2 bucket_name prefix;
  let csv_files :=
    match Contents response with
    | Some objs => fold_left (list_step bucket_name) objs []
    | None => []
    end in
  mret csv_files.

Definition list_csv_files_in_s3_except : list (Handler (list string)) :=
  [ (is_ClientError, λ e,
       logger ERROR ("Error listing files in S3: " +:+ exn_str e);;
       mret []);
    (is_Exception, λ e,
       logger ERROR ("Unexpected error: " +:+ exn_str e);;
       mret []) ].

Definition list_csv_files_in_s3 (s3_path : string) : M (list string) :=
  try_except (list_csv_files_in_s3_try s3_path) list_csv_files_in_s3_except.

(** *** [read_csv_from_s3] *)

Definition read_csv_from_s3_try (s3_path : string) : M (option DataFrame) :=
  '(bucket_name, key) ← lift (parse_s3_path s3_path);
  client "s3";;
  logger INFO ("Reading CSV from s3://" +:+ bucket_name +:+ "/" +:+ key);;
  body ← get_object bucket_name key;
  df ← lift (pd_read_csv E body);
  logger INFO ("Successfully read CSV with " +:+ pretty (df_len df)
               +:+ " rows");;
  mret (Some df).

Definition read_csv_from_s3_except : list (Handler (option DataFrame)) :=
  [ (is_ClientError, λ e,
       logger ERROR ("Error reading CSV from S3: " +:+ exn_str e);;
       mret None);
    (is_Exception, λ e,
       logger ERROR ("Unexpected error: " +:+ exn_str e);;
       mret None) ].

Definition read_csv_from_s3 (s3_path : string) : M (option DataFrame) :=
  try_except (read_csv_from_s3_try s3_path) read_csv_from_s3_except.

(** *** [write_dataframe_to_s3] *)

Definition write_dataframe_to_s3_try (df : DataFrame) (s3_path : string)
  : M bool :=
  '(bucket_name, key) ← lift (parse_s3_path s3_path);
  csv_buffer ← lift (df_to_csv E df false);
  client "s3";;
  logger INFO ("Writing DataFrame with " +:+ pretty (df_len df)
               +:+ " rows to s3://" +:+ bucket_name +:+ "/" +:+ key);;
  put_object bucket_name key csv_buffer;;
  logger INFO ("Successfully wrote DataFrame to s3://" +:+ bucket_name
               +:+ "/" +:+ key);;
  mret true.

Definition write_dataframe_to_s3_except : list (Handler bool) :=
  [ (is_ClientError, λ e,
       logger ERROR ("Error writing DataFrame to S3: " +:+ exn_str e);;
       mret false);
    (is_Exception, λ e,
       logger ERROR ("Unexpected error: " +:+ exn_str e);;
       mret false) ].

Definition write_dataframe_to_s3 (df : DataFrame) (s3_path : string)
  : M bool :=
  try_except (write_dataframe_to_s3_try df s3_path)
             write_dataframe_to_s3_except.

(** *** [main] *)

(** The namespace [parser.parse_args()] returns. *)
Record Namespace : Type := mkNamespace {
  args_upload : bool;
  args_download : bool;
  args_list : bool;
  args_source : string;
  args_destination : string
}.

(** [sys.exit(code)] *)
Definition sys_exit (code : Z) : M unit := raise (SystemExit code).

(** [for file in csv_files: print(file)] *)
Fixpoint print_all (csv_files : list string) : M unit :=
  match csv_files with
  | [] => mret ()
  | file :: rest => print file;; print_all rest
  end.

Definition main (args : Namespace) : M unit :=
  if args_upload args then
    success ← upload_csv_to_s3 (args_source args) (args_destination args);
    sys_exit (if success : bool then 0 else 1)
  else if args_download args then
    local_file ← download_csv_from_s3 (args_source args)
                                      (args_destination args);
    sys_exit (match local_file with
              | Some p => if PyStr.truthy p then 0 else 1
              | None => 1
              end)
  else if args_list args then
    csv_files ← list_csv_files_in_s3 (args_source args);
    print_all csv_files;;
    sys_exit 0
  else mret ().

(** The status the interpreter exits with when [main()] is the script:
    the code of a [SystemExit], 0 when [main] returns, 1 for an uncaught
    error (130, as shells report an interrupted process, for
    [KeyboardInterrupt]). *)
Definition exit_status (r : Res unit) : Z :=
  match r with
  | Val _ => 0
  | Raise (SystemExit code) => code
  | Raise KeyboardInterrupt => 130
  | Raise _ => 1
  end.

End Operations.

(** ** What the specification says, in its own words *)

(** The destination key of an upload as the specification words it:
    [prefix + basename(localFilePath)], with a separator in between when
    the prefix lacks a trailing one. *)
Definition spec_destination_key (prefix local_file_path : string) : string :=
  prefix +:+ (if PyStr.endswith prefix "/" then "" else "/")
         +:+ posixpath.basename local_file_path.

(** The listing as the specification words it: the keys whose lowercase
    form ends in [.csv], rendered as [s3://bucket/key], in order. *)
Definition spec_listing (bucket : string) (keys : list string) : list string :=
  map (λ key, "s3://" +:+ bucket +:+ "/" +:+ key)
      (List.filter (λ key, PyStr.endswith (PyStr.lower key) ".csv") keys).

(** The keys of a listing response. *)
Definition response_keys (response : ListResponse) : list string :=
  match Contents response with
  | Some objs => Key <$> objs
  | None => []
  end.

(** ** Collaborators that raise errors only *)

(** Every exception a collaborator raises is an error, that is, an instance
    of [Exception]. *)
Record ErrorsOnly (E : Env) : Prop := mkErrorsOnly {
  mkdir_error : ∀ w n e, os_mkdir E w n = Some e → is_Exception e = true;
  client_error : ∀ w s e, boto3_client E w s = Some e → is_Exception e = true;
  upload_error : ∀ w f b k e,
    s3_upload_file E w f b k = Some e → is_Exception e = true;
  download_error : ∀ w b k f e,
    s3_download_file E w b k f = Some e → is_Exception e = true;
  list_error : ∀ w b p e,
    s3_list_objects_v2 E w b p = Raise e → is_Exception e = true;
  get_error : ∀ w b k e, s3_get_object E w b k = Raise e → is_Exception e = true;
  put_error : ∀ w b k body e,
    s3_put_object E w b k body = Some e → is_Exception e = true;
  read_csv_error : ∀ body e, pd_read_csv E body = Raise e → is_Exception e = true;
  to_csv_error : ∀ df i e, df_to_csv E df i = Raise e → is_Exception e = true
}.

(** [raises_errors_only m]: whatever [m] raises is an instance of
    [Exception]. *)
Definition raises_errors_only {A : Type} (m : M A) : Prop :=
  ∀ w e w', m w = (Raise e, w') → is_Exception e = true.

(** ** Worlds and traces the statements speak of *)

(** The world in which the listing request reaches the backend: the
    client has been built and the request logged. *)
Definition world_at_listing (b p : string) (w : World) : World :=
  add_log (INFO, "Listing CSV files in s3://" +:+ b +:+ "/" +:+ p)
          (add_call (CallClient "s3") w).

(** The world in which the request for an object reaches the backend. *)
Definition world_at_get (b k : string) (w : World) : World :=
  add_log (INFO, "Reading CSV from s3://" +:+ b +:+ "/" +:+ k)
          (add_call (CallClient "s3") w).



(** An operation that leaves standard output alone. *)
Definition keeps_stdout {A : Type} (m : M A) : Prop :=
  ∀ w, stdout (m w).2 = stdout w.

(** ** The shape the five [except] blocks share *)

(** [except ClientError as e] logging [what + str(e)], then
    [except Exception as e] logging ["Unexpected error: " + str(e)], both
    returning [marker]. *)
Definition std_handlers {A : Type} (marker : A) (what : string)
  : list (Handler A) :=
  [ (is_ClientError, λ e, logger ERROR (what +:+ exn_str e);; mret marker);
    (is_Exception, λ e,
       logger ERROR ("Unexpected error: " +:+ exn_str e);; mret marker) ].

(** What becomes of an exception [e] raised in world [w] under those
    clauses. *)
Definition handled {A : Type} (marker : A) (what : string) (e : exn)
    (w : World) : Res A * World :=
  if is_ClientError e then
    (Val marker, add_log (ERROR, what +:+ exn_str e) w)
  else if is_Exception e then
    (Val marker, add_log (ERROR, "Unexpected error: " +:+ exn_str e) w)
  else (Raise e, w).

(** A computation that leaves the component [f] of the world as it was. *)
Definition preserves {X A : Type} (f : World → X) (m : M A) : Prop :=
  ∀ w, f (m w).2 = f w.

Definition is_info (r : Level * string) : bool :=
  match r.1 with
  | INFO => true
  | ERROR => false
  end.

(** A computation that only appends [INFO] records to the log. *)
Definition logs_info {A : Type} (m : M A) : Prop :=
  ∀ w, ∃ infos, log (m w).2 = log w ++ infos ∧ forallb is_info infos = true.

(** The records an operation appended to the log are [INFO] records,
    followed by one [ERROR] record exactly when [failed] holds. *)
Definition log_outcome (failed : Prop) (w w' : World) : Prop :=
  ∃ infos, forallb is_info infos = true
    ∧ ((failed ∧ ∃ msg, log w' = log w ++ infos ++ [(ERROR, msg)])
       ∨ (¬ failed ∧ log w' = log w ++ infos)).

(** A computation whose returned values all satisfy [P]. *)
Definition returns_only {A : Type} (P : A → Prop) (m : M A) : Prop :=
  ∀ w a w', m w = (Val a, w') → P a.

(** The calls an operation that talks to the backend once may add: none,
    the client alone, or the client and the one request. *)
Definition single_request (request : Call) (new : list Call) : Prop :=
  new = [] ∨ new = [CallClient "s3"] ∨ new = [CallClient "s3"; request].

(** ** Sample collaborators and worlds *)

(** A backend where every call succeeds; a listing answers [keys] and an
    object holds [body]. *)
Definition env_ok (keys : list string) (body : string) : Env :=
  mkEnv (λ _ _, None) (λ _ _, None) (λ _ _ _ _, None) (λ _ _ _ _, None)
        (λ _ _ _, Val (mkListResponse (Some (mkS3Object <$> keys))))
        (λ _ _ _, Val body)
        (λ _ _ _ _, None)
        (λ _, Val (mkDataFrame ["a"; "b"] [["1"; "2"]]))
        (λ _ _, Val body).

(** A backend that refuses every transfer and listing with a
    [ClientError]. *)
Definition env_denied : Env :=
  mkEnv (λ _ _, None) (λ _ _, None)
        (λ _ _ _ _, Some (ClientError "AccessDenied"))
        (λ _ _ _ _, Some (ClientError "AccessDenied"))
        (λ _ _ _, Raise (ClientError "AccessDenied"))
        (λ _ _ _, Raise (ClientError "AccessDenied"))
        (λ _ _ _ _, Some (ClientError "AccessDenied"))
        (λ _, Raise (OtherError "EmptyDataError" "No columns to parse from file"))
        (λ _ _, Val "").

(** An empty local file system, and one that holds [data.csv]. *)
Definition world_empty : World := mkWorld ∅ [] [] [].
Definition world_data : World := mkWorld {["data.csv"]} [] [] [].


(** A backend that works, with a table library that fails to serialise. *)
Definition env_unserialisable : Env :=
  mkEnv (λ _ _, None) (λ _ _, None) (λ _ _ _ _, None) (λ _ _ _ _, None)
        (λ _ _ _, Val (mkListResponse None))
        (λ _ _ _, Val "")
        (λ _ _ _ _, None)
        (λ _, Val (mkDataFrame [] []))
        (λ _ _, Raise (OtherError "UnicodeEncodeError" "codec can't encode"))
.

(** A local file system that holds [data.csv] and the directory [out]. *)
Definition world_out : World := mkWorld {["data.csv"; "out"]} [] [] [].

(** Unfolding of the monad and of the primitive computations. *)
Ltac unfold_M :=
  unfold mbind, M_bind, mret, M_ret, lift, raise, logger, print,
    call_unit, call_val, try_except, os_path_exists in *.

(** * Properties *)

(** ** Strings *)

Lemma split_no_sep (sep : ascii) (n : nat) (s : string) :
  PyStr.contains sep s = false → PyStr.split sep n s = [s].
Proof.
  induction s as [|c s IH]; intros H; destruct n as [|m]; try reflexivity.
  simpl in *. apply orb_false_iff in H as [Hc Hs].
  rewrite Hc. now rewrite (IH Hs).
Qed.

Lemma split_once (sep : ascii) (b k : string) :
  PyStr.contains sep b = false →
  PyStr.split sep 1 (b +:+ String sep k) = [b; k].
Proof.
  induction b as [|c b IH]; intros H; simpl in *.
  - rewrite Ascii.eqb_refl. now destruct k.
  - apply orb_false_iff in H as [Hc Hb]. rewrite Hc.
    now rewrite (IH Hb).
Qed.

Lemma length_app_string (s t : string) :
  String.length (s +:+ t) = String.length s + String.length t.
Proof. induction s as [|c s IH]; simpl; [reflexivity | now rewrite IH]. Qed.

Lemma append_cons (c : ascii) (s t : string) :
  String c s +:+ t = String c (s +:+ t).
Proof. reflexivity. Qed.

Lemma app_string_assoc (s t u : string) :
  (s +:+ t) +:+ u = s +:+ t +:+ u.
Proof.
  induction s as [|c s IH]; [reflexivity |].
  rewrite !append_cons. now rewrite IH.
Qed.

Lemma startswith_app (p rest : string) :
  PyStr.startswith (p +:+ rest) p = true.
Proof.
  unfold PyStr.startswith. induction p as [|c p IH]; simpl.
  - now destruct rest.
  - destruct (ascii_dec c c); [exact IH | congruence].
Qed.

Lemma slice_from_app (p rest : string) :
  PyStr.slice_from (String.length p) (p +:+ rest) = rest.
Proof. induction p as [|c p IH]; simpl; [now destruct rest | exact IH]. Qed.

(** ** [parse_s3_path] *)

Example parse_ex1 : parse_s3_path "s3://bucket-name/path/file.csv"
                    = Val ("bucket-name", "path/file.csv").
Proof. reflexivity. Qed.

Example parse_ex2 : parse_s3_path "s3://bucket-name" = Val ("bucket-name", "").
Proof. reflexivity. Qed.

Example parse_ex3 : parse_s3_path "http://bucket-name/k"
                    = Raise (ValueError "S3 path must start with 's3://'").
Proof. reflexivity. Qed.

(** On a path that carries the scheme, the result is decided by the split
    of what follows it. *)
Lemma parse_s3_path_scheme (rest : string) :
  parse_s3_path ("s3://" +:+ rest)
  = match PyStr.split "/" 1 rest with
    | [] => Raise (IndexError "list index out of range")
    | [bucket] => Val (bucket, "")
    | bucket :: key :: _ => Val (bucket, key)
    end.
Proof.
  unfold parse_s3_path.
  rewrite (startswith_app "s3://" rest).
  change 5 with (String.length "s3://").
  rewrite (slice_from_app "s3://" rest).
  destruct (PyStr.split "/" 1 rest) as [|bucket [|key parts]]; reflexivity.
Qed.

(** The two shapes of a path that carries the scheme. *)
Lemma parse_with_key (b k : string) :
  PyStr.contains "/" b = false →
  parse_s3_path ("s3://" +:+ b +:+ "/" +:+ k) = Val (b, k).
Proof.
  intros Hb. rewrite parse_s3_path_scheme.
  change ("/" +:+ k) with (String "/" k).
  now rewrite (split_once "/" b k Hb).
Qed.

Lemma parse_without_key (b : string) :
  PyStr.contains "/" b = false →
  parse_s3_path ("s3://" +:+ b) = Val (b, "").
Proof.
  intros Hb. rewrite parse_s3_path_scheme.
  now rewrite (split_no_sep "/" 1 b Hb).
Qed.

(** C1. For every path [s3://b/k], where [b] holds no ['/'] (it is what
    stands before the first ['/'] after the scheme) and [k] is all that
    follows that ['/'], [parse_s3_path] returns the pair [(b, k)]; for
    [s3://b], with no ['/'] after the bucket, the key is empty. *)
Theorem parse_s3_path_bucket_key (b k : string) :
  PyStr.contains "/" b = false →
  parse_s3_path ("s3://" +:+ b +:+ "/" +:+ k) = Val (b, k)
  ∧ parse_s3_path ("s3://" +:+ b) = Val (b, "").
Proof.
  intros Hb. split; [now apply parse_with_key | now apply parse_without_key].
Qed.

Lemma parse_s3_path_bucket_key_witness :
  PyStr.contains "/" "my-bucket" = false
  ∧ parse_s3_path ("s3://" +:+ "my-bucket" +:+ "/" +:+ "reports/2024/q1.csv")
    = Val ("my-bucket", "reports/2024/q1.csv")
  ∧ parse_s3_path ("s3://" +:+ "my-bucket") = Val ("my-bucket", "").
Proof.
  split; [reflexivity |].
  apply (parse_s3_path_bucket_key "my-bucket" "reports/2024/q1.csv").
  reflexivity.
Defined.

Lemma parse_no_scheme (s3_path : string) :
  PyStr.startswith s3_path "s3://" = false →
  parse_s3_path s3_path = Raise (ValueError "S3 path must start with 's3://'").
Proof. intros H. unfold parse_s3_path. now rewrite H. Qed.

(** C2. A string that does not start with [s3://] makes [parse_s3_path]
    raise the path-format error, a [ValueError]; no pair is returned. *)
Theorem parse_s3_path_rejects (s3_path : string) :
  PyStr.startswith s3_path "s3://" = false →
  parse_s3_path s3_path = Raise (ValueError "S3 path must start with 's3://'")
  ∧ ∀ bucket key, parse_s3_path s3_path ≠ Val (bucket, key).
Proof.
  intros H. rewrite (parse_no_scheme s3_path H). split; [reflexivity |].
  intros bucket key. discriminate.
Qed.

Lemma parse_s3_path_rejects_witness :
  PyStr.startswith "S3://bucket/key.csv" "s3://" = false
  ∧ parse_s3_path "S3://bucket/key.csv"
    = Raise (ValueError "S3 path must start with 's3://'")
  ∧ ∀ bucket key, parse_s3_path "S3://bucket/key.csv" ≠ Val (bucket, key).
Proof.
  split; [reflexivity |].
  apply (parse_s3_path_rejects "S3://bucket/key.csv"). reflexivity.
Defined.

(** Conversely, a path that carries the scheme always parses. *)
Lemma split_cons (sep : ascii) (n : nat) (s : string) :
  ∃ h t, PyStr.split sep n s = h :: t.
Proof.
  revert n. induction s as [|c s IH]; intros [|m]; simpl; eauto.
  destruct (Ascii.eqb c sep); eauto.
  destruct (IH (S m)) as (h & t & ->). eauto.
Qed.

Lemma parse_s3_path_accepts (s3_path : string) :
  PyStr.startswith s3_path "s3://" = true →
  ∃ bucket key, parse_s3_path s3_path = Val (bucket, key).
Proof.
  intros H. unfold parse_s3_path. rewrite H. simpl negb. cbv iota.
  destruct (split_cons "/" 1 (PyStr.slice_from 5 s3_path)) as (h & t & ->).
  destruct t as [|k t]; simpl; eauto.
Qed.

(** Whatever [parse_s3_path] raises is an error. *)
Lemma parse_s3_path_raises (s3_path : string) (e : exn) :
  parse_s3_path s3_path = Raise e → is_Exception e = true.
Proof.
  destruct (PyStr.startswith s3_path "s3://") eqn:H.
  - destruct (parse_s3_path_accepts _ H) as (b & k & ->). discriminate.
  - rewrite (parse_no_scheme _ H). now intros [= <-].
Qed.

(** C10. [s3://b] and [s3://b/] are two different strings that parse to
    the same pair, bucket [b] and the empty key. *)
Theorem parse_s3_path_trailing_slash (b : string) :
  PyStr.contains "/" b = false →
  parse_s3_path ("s3://" +:+ b) = Val (b, "")
  ∧ parse_s3_path ("s3://" +:+ b +:+ "/") = Val (b, "")
  ∧ "s3://" +:+ b ≠ "s3://" +:+ b +:+ "/".
Proof.
  intros Hb. split; [| split].
  - now apply parse_without_key.
  - now apply (parse_with_key b "").
  - intros Heq. apply (f_equal String.length) in Heq.
    rewrite !length_app_string in Heq. simpl in Heq. lia.
Qed.

Lemma parse_s3_path_trailing_slash_witness :
  PyStr.contains "/" "b" = false
  ∧ parse_s3_path ("s3://" +:+ "b") = Val ("b", "")
  ∧ parse_s3_path ("s3://" +:+ "b" +:+ "/") = Val ("b", "")
  ∧ "s3://" +:+ "b" ≠ "s3://" +:+ "b" +:+ "/".
Proof.
  split; [reflexivity |].
  apply (parse_s3_path_trailing_slash "b"). reflexivity.
Defined.

(** ** Running computations *)

Lemma dispatch_errors {A : Type} (h1 h2 : exn → M A) (e : exn) :
  is_Exception e = true →
  dispatch [(is_ClientError, h1); (is_Exception, h2)] e
  = Some (if is_ClientError e then h1 e else h2 e).
Proof. intros H. simpl. rewrite H. now destruct (is_ClientError e). Qed.

(** ** [upload_csv_to_s3] *)

(** C4. When the local path does not exist, [upload_csv_to_s3] returns
    [False] and makes no call at all to a collaborator: no client is
    built, nothing is sent. *)
Theorem upload_missing_file (E : Env) (w : World)
    (local_file_path s3_path : string) :
  (os_path_exists local_file_path w).1 = Val false →
  ∃ w', upload_csv_to_s3 E local_file_path s3_path w = (Val false, w')
        ∧ calls w' = calls w
        ∧ fs w' = fs w.
Proof.
  intros H. unfold upload_csv_to_s3. unfold_M. simpl in *.
  injection H as ->. simpl. eauto.
Qed.

Lemma upload_missing_file_witness :
  (os_path_exists "data.csv" world_empty).1 = Val false
  ∧ ∃ w', upload_csv_to_s3 env_denied "data.csv" "s3://bucket/dir/" world_empty
          = (Val false, w')
          ∧ calls w' = calls world_empty
          ∧ fs w' = fs world_empty.
Proof.
  split; [reflexivity |].
  apply (upload_missing_file env_denied world_empty "data.csv" "s3://bucket/dir/").
  reflexivity.
Defined.

(** The calls an upload makes once the file is there, the path parses and
    the client is built: the client, then one [upload_file] whose key is
    the prefix, a ['/'] if the prefix is not empty and lacks one, and the
    base name. *)
Lemma upload_calls (E : Env) (w : World) (local_file_path s3_path b p : string) :
  (os_path_exists local_file_path w).1 = Val true →
  parse_s3_path s3_path = Val (b, p) →
  boto3_client E w "s3" = None →
  calls (upload_csv_to_s3 E local_file_path s3_path w).2
  = calls w ++
    [CallClient "s3";
     CallUploadFile local_file_path b
       ((if PyStr.truthy p && negb (PyStr.endswith p "/")
         then p +:+ "/" else p) +:+ posixpath.basename local_file_path)].
Proof.
  intros Hex Hp Hc.
  unfold upload_csv_to_s3, upload_csv_to_s3_try, upload_csv_to_s3_except,
    client, upload_file.
  unfold_M. simpl in Hex. injection Hex as ->. rewrite Hp. simpl.
  rewrite Hc. simpl.
  destruct (s3_upload_file E _ _ _ _) as [e|]; simpl.
  - destruct e; simpl; now rewrite <- app_assoc.
  - now rewrite <- app_assoc.
Qed.

(** C3, as the code has it.  With the file present, the destination
    parsed to bucket [b] and prefix [p], and the client built, the upload
    sends the file under the key the specification describes,
    [p + sep + basename], when [p] is not empty; under the bare base name,
    with no separator, when [p] is empty. *)
Theorem upload_destination_key (E : Env) (w : World)
    (local_file_path s3_path b p : string) :
  (os_path_exists local_file_path w).1 = Val true →
  parse_s3_path s3_path = Val (b, p) →
  boto3_client E w "s3" = None →
  ∃ key,
    calls (upload_csv_to_s3 E local_file_path s3_path w).2
    = calls w ++ [CallClient "s3"; CallUploadFile local_file_path b key]
    ∧ (p ≠ "" → key = spec_destination_key p local_file_path)
    ∧ (p = "" → key = posixpath.basename local_file_path).
Proof.
  intros Hex Hp Hc. eexists. split; [apply (upload_calls E w _ _ b p); assumption |].
  unfold spec_destination_key. split.
  - intros Hne. destruct p as [|c p]; [congruence |]. simpl PyStr.truthy.
    rewrite andb_true_l.
    destruct (PyStr.endswith (String c p) "/"); simpl negb; cbv iota.
    + reflexivity.
    + apply app_string_assoc.
  - intros ->. reflexivity.
Qed.

Lemma upload_destination_key_witness :
  (os_path_exists "in/data.csv" (mkWorld {["in/data.csv"]} [] [] [])).1 = Val true
  ∧ parse_s3_path "s3://bucket/dir" = Val ("bucket", "dir")
  ∧ boto3_client (env_ok [] "") (mkWorld {["in/data.csv"]} [] [] []) "s3" = None
  ∧ ∃ key,
      calls (upload_csv_to_s3 (env_ok [] "") "in/data.csv" "s3://bucket/dir"
               (mkWorld {["in/data.csv"]} [] [] [])).2
      = [] ++ [CallClient "s3"; CallUploadFile "in/data.csv" "bucket" key]
      ∧ ("dir" ≠ "" → key = spec_destination_key "dir" "in/data.csv")
      ∧ ("dir" = "" → key = posixpath.basename "in/data.csv").
Proof.
  split; [reflexivity |]. split; [reflexivity |]. split; [reflexivity |].
  apply (upload_destination_key (env_ok [] "")
           (mkWorld {["in/data.csv"]} [] [] [])
           "in/data.csv" "s3://bucket/dir" "bucket" "dir"); reflexivity.
Defined.

(** C3, as the specification words it, fails on the empty prefix: an
    upload of [data.csv] to [s3://bucket] sends it under the key
    [data.csv], where the specification's formula gives [/data.csv]. *)
Lemma upload_empty_prefix_counterexample :
  parse_s3_path "s3://bucket" = Val ("bucket", "")
  ∧ spec_destination_key "" "data.csv" = "/data.csv"
  ∧ calls (upload_csv_to_s3 (env_ok [] "") "data.csv" "s3://bucket" world_data).2
    = [CallClient "s3"; CallUploadFile "data.csv" "bucket" "data.csv"]
  ∧ calls (upload_csv_to_s3 (env_ok [] "") "data.csv" "s3://bucket" world_data).2
    ≠ [CallClient "s3";
       CallUploadFile "data.csv" "bucket" (spec_destination_key "" "data.csv")].
Proof.
  split; [reflexivity |]. split; [reflexivity |]. split; [reflexivity |].
  vm_compute. discriminate.
Qed.

(** ** [list_csv_files_in_s3] *)

(** The loop appends, to what it has, the listing the specification
    describes. *)
Lemma list_loop (bucket_name : string) (objs : list S3Object)
    (csv_files : list string) :
  fold_left (list_step bucket_name) objs csv_files
  = csv_files ++ spec_listing bucket_name (Key <$> objs).
Proof.
  revert csv_files. induction objs as [|obj objs IH]; intros csv_files.
  - simpl. now rewrite app_nil_r.
  - simpl fold_left. rewrite IH. unfold list_step, spec_listing. simpl.
    destruct (PyStr.endswith (PyStr.lower (Key obj)) ".csv"); simpl.
    + now rewrite <- app_assoc.
    + reflexivity.
Qed.


(** C5. Whatever the backend answers to the listing request,
    [list_csv_files_in_s3] returns exactly the keys of the answer whose
    lowercase form ends in [.csv], each as [s3://bucket/key], in the order
    of the answer. *)
Theorem list_csv_files_filters (E : Env) (w : World) (s3_path b p : string)
    (response : ListResponse) :
  parse_s3_path s3_path = Val (b, p) →
  boto3_client E w "s3" = None →
  s3_list_objects_v2 E (world_at_listing b p w) b p = Val response →
  (list_csv_files_in_s3 E s3_path w).1
  = Val (spec_listing b (response_keys response)).
Proof.
  intros Hp Hc Hl.
  unfold list_csv_files_in_s3, list_csv_files_in_s3_try, client,
    list_objects_v2.
  unfold_M. rewrite Hp. simpl. rewrite Hc. simpl.
  unfold world_at_listing in Hl. rewrite Hl. simpl.
  unfold response_keys. destruct (Contents response) as [objs|]; [| reflexivity].
  now rewrite list_loop.
Qed.

Lemma list_csv_files_filters_witness :
  parse_s3_path "s3://bucket/p/" = Val ("bucket", "p/")
  ∧ boto3_client (env_ok ["a.csv"; "b.txt"; "C.CSV"] "") world_empty "s3" = None
  ∧ s3_list_objects_v2 (env_ok ["a.csv"; "b.txt"; "C.CSV"] "")
      (world_at_listing "bucket" "p/" world_empty) "bucket" "p/"
    = Val (mkListResponse
             (Some [mkS3Object "a.csv"; mkS3Object "b.txt"; mkS3Object "C.CSV"]))
  ∧ (list_csv_files_in_s3 (env_ok ["a.csv"; "b.txt"; "C.CSV"] "")
       "s3://bucket/p/" world_empty).1
    = Val ["s3://bucket/a.csv"; "s3://bucket/C.CSV"].
Proof.
  split; [reflexivity |]. split; [reflexivity |]. split; [reflexivity |].
  apply (list_csv_files_filters (env_ok ["a.csv"; "b.txt"; "C.CSV"] "")
           world_empty "s3://bucket/p/" "bucket" "p/"
           (mkListResponse
              (Some [mkS3Object "a.csv"; mkS3Object "b.txt"; mkS3Object "C.CSV"])));
    reflexivity.
Defined.

(** ** No error leaves an operation *)

Section ErrorsAreCaught.

Context {A B : Type}.

Lemma reo_mret (a : A) : raises_errors_only (mret a : M A).
Proof. intros w e w' H. discriminate. Qed.

Lemma reo_bind (m : M A) (k : A → M B) :
  raises_errors_only m → (∀ a, raises_errors_only (k a)) →
  raises_errors_only (m ≫= k).
Proof.
  intros Hm Hk w e w' H. unfold mbind, M_bind in H.
  destruct (m w) as [[a|e1] w1] eqn:Hmw.
  - exact (Hk a w1 e w' H).
  - injection H as He Hw. subst. exact (Hm w e w' Hmw).
Qed.

Lemma reo_lift (r : Res A) :
  (∀ e, r = Raise e → is_Exception e = true) → raises_errors_only (lift r).
Proof. intros Hr w e w' H. injection H as Hr' _. now apply Hr. Qed.

Lemma reo_call_val (c : Call) (answer : World → Res A) :
  (∀ w e, answer w = Raise e → is_Exception e = true) →
  raises_errors_only (call_val c answer).
Proof. intros Ha w e w' H. injection H as H _. exact (Ha w e H). Qed.

(** A [try] whose block raises errors only, under clauses for
    [ClientError] and [Exception] that log and return [marker], always
    returns; it returns [marker] whenever the block raised. *)
Lemma try_except_returns (body : M A) (marker : A) (m1 m2 : exn → string) :
  raises_errors_only body →
  ∀ w, ∃ r w',
    try_except body
      [ (is_ClientError, λ e, logger ERROR (m1 e);; mret marker);
        (is_Exception, λ e, logger ERROR (m2 e);; mret marker) ] w
    = (Val r, w')
    ∧ (∀ e w1, body w = (Raise e, w1) → r = marker).
Proof.
  intros Hb w. unfold try_except.
  destruct (body w) as [[a|e] w1] eqn:Hbw.
  - exists a, w1. split; [reflexivity | discriminate].
  - rewrite (dispatch_errors _ _ e (Hb w e w1 Hbw)).
    destruct (is_ClientError e); unfold_M; eauto.
Qed.

End ErrorsAreCaught.

Lemma reo_logger (lvl : Level) (msg : string) :
  raises_errors_only (logger lvl msg).
Proof. intros w e w' H. discriminate. Qed.

Lemma reo_call_unit (c : Call) (answer : World → option exn)
    (effect : World → World) :
  (∀ w e, answer w = Some e → is_Exception e = true) →
  raises_errors_only (call_unit c answer effect).
Proof.
  intros Ha w e w' H. unfold call_unit in H.
  destruct (answer w) as [e1|] eqn:Haw; [| discriminate].
  injection H as He _. subst. exact (Ha w e Haw).
Qed.

Lemma reo_os_path_exists (p : string) : raises_errors_only (os_path_exists p).
Proof. intros w e w' H. discriminate. Qed.

Lemma reo_parse (s3_path : string) :
  raises_errors_only (lift (parse_s3_path s3_path)).
Proof. apply reo_lift, parse_s3_path_raises. Qed.

Section ErrorsOnlyEnv.

Variable E : Env.
Hypothesis HE : ErrorsOnly E.

Lemma reo_os_makedirs (name : string) :
  raises_errors_only (os_makedirs E name).
Proof.
  apply reo_call_unit. intros w e.
  destruct (negb (PyStr.truthy name)); [now intros [= <-] |].
  destruct (bool_decide (name ∈ fs w)); [now intros [= <-] |].
  apply (mkdir_error E HE).
Qed.

Lemma reo_client (service : string) : raises_errors_only (client E service).
Proof. apply reo_call_unit. intros w e. apply (client_error E HE). Qed.

Lemma reo_upload_file (f b k : string) :
  raises_errors_only (upload_file E f b k).
Proof. apply reo_call_unit. intros w e. apply (upload_error E HE). Qed.

Lemma reo_download_file (b k f : string) :
  raises_errors_only (download_file E b k f).
Proof. apply reo_call_unit. intros w e. apply (download_error E HE). Qed.

Lemma reo_list_objects_v2 (b p : string) :
  raises_errors_only (list_objects_v2 E b p).
Proof. apply reo_call_val. intros w e. apply (list_error E HE). Qed.

Lemma reo_get_object (b k : string) : raises_errors_only (get_object E b k).
Proof. apply reo_call_val. intros w e. apply (get_error E HE). Qed.

Lemma reo_put_object (b k body : string) :
  raises_errors_only (put_object E b k body).
Proof. apply reo_call_unit. intros w e. apply (put_error E HE). Qed.

Ltac reo :=
  repeat first
    [ apply reo_bind; [| intros ?]
    | apply reo_mret | apply reo_logger | apply reo_parse
    | apply reo_os_path_exists | apply reo_os_makedirs | apply reo_client
    | apply reo_upload_file | apply reo_download_file
    | apply reo_list_objects_v2 | apply reo_get_object | apply reo_put_object
    | apply reo_lift; intros ?; first [ apply (read_csv_error E HE)
                                      | apply (to_csv_error E HE) ]
    | match goal with
      | x : (_ * _)%type |- _ => destruct x
      | |- raises_errors_only (if ?c then _ else _) => destruct c
      end ].

Lemma reo_upload_try (l s : string) :
  raises_errors_only (upload_csv_to_s3_try E l s).
Proof. unfold upload_csv_to_s3_try. reo. Qed.

Lemma reo_download_try (s d : string) :
  raises_errors_only (download_csv_from_s3_try E s d).
Proof. unfold download_csv_from_s3_try. reo. Qed.

Lemma reo_list_try (s : string) :
  raises_errors_only (list_csv_files_in_s3_try E s).
Proof. unfold list_csv_files_in_s3_try. reo. Qed.

Lemma reo_read_try (s : string) :
  raises_errors_only (read_csv_from_s3_try E s).
Proof. unfold read_csv_from_s3_try. reo. Qed.

Lemma reo_write_try (df : DataFrame) (s : string) :
  raises_errors_only (write_dataframe_to_s3_try E df s).
Proof. unfold write_dataframe_to_s3_try. reo. Qed.

End ErrorsOnlyEnv.

Section Returns.

Variable E : Env.
Hypothesis HE : ErrorsOnly E.

Lemma upload_returns (l s : string) (w : World) :
  ∃ r w', upload_csv_to_s3 E l s w = (Val r, w')
          ∧ ∀ e w1, upload_csv_to_s3_try E l s w = (Raise e, w1) → r = false.
Proof.
  unfold upload_csv_to_s3, os_path_exists, mbind, M_bind.
  destruct (PyStr.truthy l && bool_decide (l ∈ fs w)); simpl negb; cbv iota.
  - apply (try_except_returns (upload_csv_to_s3_try E l s) false
             (λ e, "Error uploading file to S3: " +:+ exn_str e)
             (λ e, "Unexpected error: " +:+ exn_str e)
             (reo_upload_try E HE l s) w).
  - unfold_M. eauto.
Qed.

Lemma download_returns (s d : string) (w : World) :
  ∃ r w', download_csv_from_s3 E s d w = (Val r, w')
          ∧ ∀ e w1, download_csv_from_s3_try E s d w = (Raise e, w1) → r = None.
Proof.
  apply (try_except_returns (download_csv_from_s3_try E s d) None
           (λ e, "Error downloading file from S3: " +:+ exn_str e)
           (λ e, "Unexpected error: " +:+ exn_str e)
           (reo_download_try E HE s d) w).
Qed.

Lemma list_returns (s : string) (w : World) :
  ∃ r w', list_csv_files_in_s3 E s w = (Val r, w')
          ∧ ∀ e w1, list_csv_files_in_s3_try E s w = (Raise e, w1) → r = [].
Proof.
  apply (try_except_returns (list_csv_files_in_s3_try E s) []
           (λ e, "Error listing files in S3: " +:+ exn_str e)
           (λ e, "Unexpected error: " +:+ exn_str e)
           (reo_list_try E HE s) w).
Qed.

Lemma read_returns (s : string) (w : World) :
  ∃ r w', read_csv_from_s3 E s w = (Val r, w')
          ∧ ∀ e w1, read_csv_from_s3_try E s w = (Raise e, w1) → r = None.
Proof.
  apply (try_except_returns (read_csv_from_s3_try E s) None
           (λ e, "Error reading CSV from S3: " +:+ exn_str e)
           (λ e, "Unexpected error: " +:+ exn_str e)
           (reo_read_try E HE s) w).
Qed.

Lemma write_returns (df : DataFrame) (s : string) (w : World) :
  ∃ r w', write_dataframe_to_s3 E df s w = (Val r, w')
          ∧ ∀ e w1, write_dataframe_to_s3_try E df s w = (Raise e, w1)
                    → r = false.
Proof.
  apply (try_except_returns (write_dataframe_to_s3_try E df s) false
           (λ e, "Error writing DataFrame to S3: " +:+ exn_str e)
           (λ e, "Unexpected error: " +:+ exn_str e)
           (reo_write_try E HE df s) w).
Qed.

End Returns.

Lemma env_denied_errors_only : ErrorsOnly env_denied.
Proof. split; simpl; intros; simplify_eq; reflexivity. Qed.

Lemma env_ok_errors_only (keys : list string) (body : string) :
  ErrorsOnly (env_ok keys body).
Proof. split; simpl; intros; simplify_eq. Qed.

(** C6. Whatever the inputs and whatever the collaborators do, as long as
    what they raise are errors (instances of [Exception]), each of the
    five operations returns a value to its caller, and that value is its
    failure marker ([False], [None] or the empty list) whenever its [try]
    block raised. *)
Theorem operations_catch_all_errors (E : Env) (w : World) :
  ErrorsOnly E →
  (∀ local_file_path s3_path, ∃ r w',
      upload_csv_to_s3 E local_file_path s3_path w = (Val r, w')
      ∧ ∀ e w1, upload_csv_to_s3_try E local_file_path s3_path w = (Raise e, w1)
                → r = false)
  ∧ (∀ s3_path local_directory, ∃ r w',
      download_csv_from_s3 E s3_path local_directory w = (Val r, w')
      ∧ ∀ e w1, download_csv_from_s3_try E s3_path local_directory w
                = (Raise e, w1) → r = None)
  ∧ (∀ s3_path, ∃ r w',
      list_csv_files_in_s3 E s3_path w = (Val r, w')
      ∧ ∀ e w1, list_csv_files_in_s3_try E s3_path w = (Raise e, w1) → r = [])
  ∧ (∀ s3_path, ∃ r w',
      read_csv_from_s3 E s3_path w = (Val r, w')
      ∧ ∀ e w1, read_csv_from_s3_try E s3_path w = (Raise e, w1) → r = None)
  ∧ (∀ df s3_path, ∃ r w',
      write_dataframe_to_s3 E df s3_path w = (Val r, w')
      ∧ ∀ e w1, write_dataframe_to_s3_try E df s3_path w = (Raise e, w1)
                → r = false).
Proof.
  intros HE. repeat split.
  - intros l s. apply (upload_returns E HE).
  - intros s d. apply (download_returns E HE).
  - intros s. apply (list_returns E HE).
  - intros s. apply (read_returns E HE).
  - intros df s. apply (write_returns E HE).
Qed.

Lemma operations_catch_all_errors_witness :
  ErrorsOnly env_denied
  ∧ (∃ r w',
       upload_csv_to_s3 env_denied "data.csv" "s3://bucket/dir/" world_data
       = (Val r, w')
       ∧ ∀ e w1, upload_csv_to_s3_try env_denied "data.csv" "s3://bucket/dir/"
                   world_data = (Raise e, w1) → r = false)
  ∧ (∃ r w',
       read_csv_from_s3 env_denied "bucket/dir/data.csv" world_data = (Val r, w')
       ∧ ∀ e w1, read_csv_from_s3_try env_denied "bucket/dir/data.csv" world_data
                 = (Raise e, w1) → r = None).
Proof.
  split; [split; simpl; intros; simplify_eq; reflexivity |].
  destruct (operations_catch_all_errors env_denied world_data)
    as (Hup & _ & _ & Hread & _).
  - split; simpl; intros; simplify_eq; reflexivity.
  - split; [apply Hup | apply Hread].
Defined.

(** What [except Exception] leaves alone: an interrupt raised while the
    backend is being called is not an error and goes on to the caller. *)
Remark interrupt_is_not_caught :
  (list_csv_files_in_s3
     (mkEnv (λ _ _, None) (λ _ _, Some KeyboardInterrupt) (λ _ _ _ _, None)
            (λ _ _ _ _, None) (λ _ _ _, Val (mkListResponse None))
            (λ _ _ _, Val "") (λ _ _ _ _, None)
            (λ _, Val (mkDataFrame [] [])) (λ _ _, Val ""))
     "s3://bucket/p/" world_empty).1
  = Raise KeyboardInterrupt.
Proof. reflexivity. Qed.

(** ** [download_csv_from_s3] *)

Lemma truthy_app (a b : string) :
  PyStr.truthy a = true → PyStr.truthy (a +:+ b) = true.
Proof. destruct a; [discriminate | reflexivity]. Qed.

Lemma join_truthy (a b : string) :
  PyStr.truthy a = true → PyStr.truthy (posixpath.join a b) = true.
Proof.
  intros Ha. unfold posixpath.join.
  destruct (PyStr.startswith b "/") eqn:Hb.
  - destruct b; [discriminate | reflexivity].
  - destruct (negb (PyStr.truthy a) || PyStr.endswith a "/");
      now apply truthy_app.
Qed.

(** Inversion of a computation that returned. *)

Lemma bind_val_inv {A B : Type} (m : M A) (k : A → M B) (w w' : World) (b : B) :
  (m ≫= k) w = (Val b, w') →
  ∃ a w1, m w = (Val a, w1) ∧ k a w1 = (Val b, w').
Proof.
  unfold mbind, M_bind. destruct (m w) as [[a|e] w1]; [eauto | discriminate].
Qed.

Lemma try_except_val_inv {A : Type} (body : M A) (hs : list (Handler A))
    (w w' : World) (r : A) :
  try_except body hs w = (Val r, w') →
  body w = (Val r, w')
  ∨ ∃ e w1 h, body w = (Raise e, w1) ∧ dispatch hs e = Some h
              ∧ h w1 = (Val r, w').
Proof.
  unfold try_except. destruct (body w) as [[a|e] w1]; [now left |].
  destruct (dispatch hs e) as [h|] eqn:Hd; [| discriminate].
  intros H. right. exists e, w1, h. repeat split; assumption || reflexivity.
Qed.

Lemma os_makedirs_val_inv (E : Env) (name : string) (w w' : World) (u : ()) :
  os_makedirs E name w = (Val u, w') →
  PyStr.truthy name = true ∧ os_mkdir E w name = None
  ∧ w' = add_path name (add_call (CallMakedirs name) w).
Proof.
  unfold os_makedirs, call_unit.
  destruct (PyStr.truthy name); simpl; [| discriminate].
  destruct (bool_decide (name ∈ fs w)); [discriminate |].
  destruct (os_mkdir E w name); [discriminate |].
  now intros [= _ <-].
Qed.

Lemma download_except_none (e : exn) (h : M (option string)) (w w' : World)
    (r : option string) :
  dispatch download_csv_from_s3_except e = Some h → h w = (Val r, w') →
  r = None.
Proof.
  unfold download_csv_from_s3_except. simpl.
  destruct (is_ClientError e); [| destruct (is_Exception e); [| discriminate]];
    intros [= <-]; unfold_M; now intros [= <- _].
Qed.

(** A path that [download_csv_from_s3] returns is never the empty string,
    so it counts as true. *)
Lemma download_success_truthy (E : Env) (s d p : string) (w : World) :
  (download_csv_from_s3 E s d w).1 = Val (Some p) → PyStr.truthy p = true.
Proof.
  destruct (download_csv_from_s3 E s d w) as [r w'] eqn:Hrun. simpl.
  intros ->. unfold download_csv_from_s3 in Hrun.
  apply try_except_val_inv in Hrun as [Hb | (e & w1 & h & _ & Hd & Hh)].
  2: { now pose proof (download_except_none e h w1 w' _ Hd Hh). }
  unfold download_csv_from_s3_try in Hb.
  apply bind_val_inv in Hb as ([b k] & w1 & _ & Hb).
  apply bind_val_inv in Hb as (found & w2 & Hex & Hb).
  apply bind_val_inv in Hb as (u & w3 & Hmk & Hb).
  apply bind_val_inv in Hb as (u1 & w4 & _ & Hb).
  apply bind_val_inv in Hb as (u2 & w5 & _ & Hb).
  apply bind_val_inv in Hb as (u3 & w6 & _ & Hb).
  apply bind_val_inv in Hb as (u4 & w7 & _ & Hb).
  injection Hb as <- _. apply join_truthy.
  unfold os_path_exists in Hex. injection Hex as <- <-.
  destruct (PyStr.truthy d) eqn:Hd; [reflexivity |].
  simpl in Hmk. apply os_makedirs_val_inv in Hmk as [Ht _]. congruence.
Qed.

(** ** [main] *)


Lemma ks_mret {A : Type} (a : A) : keeps_stdout (mret a : M A).
Proof. now intros w. Qed.

Lemma ks_bind {A B : Type} (m : M A) (k : A → M B) :
  keeps_stdout m → (∀ a, keeps_stdout (k a)) → keeps_stdout (m ≫= k).
Proof.
  intros Hm Hk w. unfold mbind, M_bind. specialize (Hm w).
  destruct (m w) as [[a|e] w1]; simpl in *; [| exact Hm].
  now rewrite (Hk a w1).
Qed.

Lemma ks_lift {A : Type} (r : Res A) : keeps_stdout (lift r).
Proof. now intros w. Qed.

Lemma ks_logger (lvl : Level) (msg : string) : keeps_stdout (logger lvl msg).
Proof. now intros w. Qed.

Lemma ks_call_unit (c : Call) (answer : World → option exn)
    (effect : World → World) :
  (∀ w, stdout (effect w) = stdout w) →
  keeps_stdout (call_unit c answer effect).
Proof.
  intros He w. unfold call_unit.
  destruct (answer w); simpl; [reflexivity | now rewrite He].
Qed.

Lemma ks_call_val {A : Type} (c : Call) (answer : World → Res A) :
  keeps_stdout (call_val c answer).
Proof. now intros w. Qed.

Lemma ks_try_except {A : Type} (body : M A) (hs : list (Handler A)) :
  keeps_stdout body →
  (∀ e h, dispatch hs e = Some h → keeps_stdout h) →
  keeps_stdout (try_except body hs).
Proof.
  intros Hb Hh w. unfold try_except. specialize (Hb w).
  destruct (body w) as [[a|e] w1]; simpl in *; [exact Hb |].
  destruct (dispatch hs e) as [h|] eqn:Hd; simpl; [| exact Hb].
  now rewrite (Hh e h Hd w1).
Qed.

Lemma list_keeps_stdout (E : Env) (s : string) :
  keeps_stdout (list_csv_files_in_s3 E s).
Proof.
  unfold list_csv_files_in_s3. apply ks_try_except.
  - unfold list_csv_files_in_s3_try, client, list_objects_v2.
    apply ks_bind; [apply ks_lift | intros [b p]].
    apply ks_bind; [now apply ks_call_unit | intros _].
    apply ks_bind; [apply ks_logger | intros _].
    apply ks_bind; [apply ks_call_val | intros response].
    apply ks_mret.
  - intros e h. unfold list_csv_files_in_s3_except. simpl.
    destruct (is_ClientError e); [| destruct (is_Exception e); [| discriminate]];
      intros [= <-]; (apply ks_bind; [apply ks_logger | intros _; apply ks_mret]).
Qed.

Lemma print_all_run (csv_files : list string) (w : World) :
  print_all csv_files w
  = (Val (), mkWorld (fs w) (calls w) (log w) (stdout w ++ csv_files)).
Proof.
  revert w. induction csv_files as [|file rest IH]; intros w.
  - simpl. unfold_M. rewrite app_nil_r. now destruct w.
  - simpl. unfold mbind, M_bind, print. rewrite IH. simpl.
    now rewrite <- app_assoc.
Qed.

(** C7. With collaborators that raise errors only: an [--upload] run
    exits with 0 when [upload_csv_to_s3] returned [True] and with 1 when it
    returned [False]; a [--download] run exits with 0 when
    [download_csv_from_s3] returned a path and with 1 when it returned
    [None]; a [--list] run prints the paths [list_csv_files_in_s3]
    returned, one per line, and exits with 0 whatever that list is. *)
Theorem main_exit_status (E : Env) (args : Namespace) (w : World) :
  ErrorsOnly E →
  (args_upload args = true →
     ∃ success,
       (upload_csv_to_s3 E (args_source args) (args_destination args) w).1
       = Val success
       ∧ exit_status (main E args w).1 = (if success then 0 else 1)%Z)
  ∧ (args_upload args = false → args_download args = true →
     ∃ local_file,
       (download_csv_from_s3 E (args_source args) (args_destination args) w).1
       = Val local_file
       ∧ exit_status (main E args w).1
         = (match local_file with Some _ => 0 | None => 1 end)%Z)
  ∧ (args_upload args = false → args_download args = false →
     args_list args = true →
     ∃ csv_files,
       (list_csv_files_in_s3 E (args_source args) w).1 = Val csv_files
       ∧ stdout (main E args w).2 = stdout w ++ csv_files
       ∧ exit_status (main E args w).1 = 0%Z).
Proof.
  intros HE. split; [| split].
  - intros Hu. unfold main. rewrite Hu. unfold mbind, M_bind.
    destruct (upload_returns E HE (args_source args) (args_destination args) w)
      as (r & w' & -> & _).
    exists r. split; [reflexivity |]. now destruct r.
  - intros Hu Hd. unfold main. rewrite Hu, Hd. unfold mbind, M_bind.
    pose proof (λ p, download_success_truthy E (args_source args)
                       (args_destination args) p w) as Ht.
    destruct (download_returns E HE (args_source args) (args_destination args) w)
      as (r & w' & Hr & _).
    rewrite Hr in *. exists r. split; [reflexivity |].
    destruct r as [p|]; [| reflexivity].
    simpl. now rewrite (Ht p eq_refl).
  - intros Hu Hd Hl. unfold main. rewrite Hu, Hd, Hl. unfold mbind, M_bind.
    pose proof (list_keeps_stdout E (args_source args) w) as Hs.
    destruct (list_returns E HE (args_source args) w) as (r & w' & Hr & _).
    rewrite Hr in *. simpl in Hs. exists r. split; [reflexivity |].
    rewrite print_all_run. simpl. now rewrite Hs.
Qed.

Lemma main_exit_status_witness :
  ErrorsOnly env_denied
  ∧ (∃ success,
       (upload_csv_to_s3 env_denied "data.csv" "s3://bucket/dir/" world_data).1
       = Val success
       ∧ exit_status
           (main env_denied
              (mkNamespace true false false "data.csv" "s3://bucket/dir/")
              world_data).1
         = (if success then 0 else 1)%Z)
  ∧ (∃ local_file,
       (download_csv_from_s3 env_denied "s3://bucket/dir/data.csv" "out"
          world_data).1 = Val local_file
       ∧ exit_status
           (main env_denied
              (mkNamespace false true false "s3://bucket/dir/data.csv" "out")
              world_data).1
         = (match local_file with Some _ => 0 | None => 1 end)%Z)
  ∧ (∃ csv_files,
       (list_csv_files_in_s3 env_denied "s3://bucket/dir/" world_data).1
       = Val csv_files
       ∧ stdout
           (main env_denied (mkNamespace false false true "s3://bucket/dir/" "")
              world_data).2
         = stdout world_data ++ csv_files
       ∧ exit_status
           (main env_denied (mkNamespace false false true "s3://bucket/dir/" "")
              world_data).1 = 0%Z).
Proof.
  assert (HE : ErrorsOnly env_denied)
    by (split; simpl; intros; simplify_eq; reflexivity).
  split; [exact HE |]. split; [| split].
  - apply (proj1 (main_exit_status env_denied
             (mkNamespace true false false "data.csv" "s3://bucket/dir/")
             world_data HE)).
    reflexivity.
  - apply (proj1 (proj2 (main_exit_status env_denied
             (mkNamespace false true false "s3://bucket/dir/data.csv" "out")
             world_data HE))); reflexivity.
  - apply (proj2 (proj2 (main_exit_status env_denied
             (mkNamespace false false true "s3://bucket/dir/" "")
             world_data HE))); reflexivity.
Defined.

Example main_upload_ok :
  exit_status (main (env_ok [] "") (mkNamespace true false false "data.csv" "s3://bucket/dir/") world_data).1 = 0%Z.
Proof. reflexivity. Qed.

Example main_upload_denied :
  exit_status (main env_denied (mkNamespace true false false "data.csv" "s3://bucket/dir/") world_data).1 = 1%Z.
Proof. reflexivity. Qed.

Example main_list_denied :
  exit_status (main env_denied (mkNamespace false false true "s3://bucket/dir/" "") world_data).1 = 0%Z.
Proof. reflexivity. Qed.

Example main_list_prints :
  stdout (main (env_ok ["a.csv"; "b.txt"; "C.CSV"] "")
            (mkNamespace false false true "s3://bucket/p/" "") world_empty).2
  = ["s3://bucket/a.csv"; "s3://bucket/C.CSV"].
Proof. reflexivity. Qed.

(** ** The directory a download creates *)




(** A refused transfer, run: the directory is made first, the backend is
    called next, the result is [None] and the directory stays. *)
Example download_denied_run :
  let run := download_csv_from_s3 env_denied "s3://bucket/dir/data.csv" "out"
               world_empty in
  run.1 = Val None
  ∧ calls run.2 = [CallMakedirs "out"; CallClient "s3";
                   CallDownloadFile "bucket" "dir/data.csv" "out/data.csv"]
  ∧ bool_decide ("out" ∈ fs run.2) = true
  ∧ bool_decide ("out/data.csv" ∈ fs run.2) = false.
Proof. vm_compute. repeat split. Qed.

(** ** Tables pass through *)

(** [write_dataframe_to_s3] hands the backend exactly the text
    [df.to_csv(index=False)] produced, under the parsed bucket and key. *)
Lemma write_puts_csv (E : Env) (w : World) (df : DataFrame)
    (s3_path b k csv : string) :
  parse_s3_path s3_path = Val (b, k) →
  df_to_csv E df false = Val csv →
  boto3_client E w "s3" = None →
  calls (write_dataframe_to_s3 E df s3_path w).2
  = calls w ++ [CallClient "s3"; CallPutObject b k csv].
Proof.
  intros Hp Hcsv Hc.
  unfold write_dataframe_to_s3, write_dataframe_to_s3_try,
    write_dataframe_to_s3_except, client, put_object.
  unfold_M. rewrite Hp. simpl. rewrite Hcsv, Hc. simpl.
  destruct (s3_put_object E _ _ _ _) as [e|]; simpl.
  - destruct e; simpl; now rewrite <- app_assoc.
  - now rewrite <- app_assoc.
Qed.

(** [read_csv_from_s3] returns what [pd.read_csv] makes of the body the
    backend answered with. *)
Lemma read_parses_body (E : Env) (w : World) (s3_path b k body : string)
    (df : DataFrame) :
  parse_s3_path s3_path = Val (b, k) →
  boto3_client E w "s3" = None →
  s3_get_object E (world_at_get b k w) b k = Val body →
  pd_read_csv E body = Val df →
  (read_csv_from_s3 E s3_path w).1 = Val (Some df).
Proof.
  intros Hp Hc Hg Hr.
  unfold read_csv_from_s3, read_csv_from_s3_try, client, get_object.
  unfold_M. rewrite Hp. simpl. rewrite Hc. simpl.
  unfold world_at_get in Hg. rewrite Hg. simpl. now rewrite Hr.
Qed.


(** * More of the code *)

(** ** [parse_s3_path], read backwards *)

Lemma ascii_eqb_true (c d : ascii) : Ascii.eqb c d = true → c = d.
Proof. apply Ascii.eqb_eq. Qed.

(** One cut: either there is no separator and the string comes back whole,
    or the string is what stands before the first separator, the separator,
    and the rest. *)
Lemma split_one_inv (sep : ascii) (s : string) :
  (PyStr.split sep 1 s = [s] ∧ PyStr.contains sep s = false)
  ∨ ∃ b k, PyStr.split sep 1 s = [b; k] ∧ PyStr.contains sep b = false
           ∧ s = b +:+ String sep k.
Proof.
  induction s as [|c s IH].
  - left. split; reflexivity.
  - simpl. destruct (Ascii.eqb c sep) eqn:Hc.
    + right. exists EmptyString, s. apply ascii_eqb_true in Hc as ->.
      repeat split. now destruct s.
    + destruct IH as [[-> Hs] | (b & k & -> & Hb & ->)].
      * left. split; [reflexivity | exact Hs].
      * right. exists (String c b), k. simpl. rewrite Hc. repeat split.
        exact Hb.
Qed.

Lemma startswith_inv (p s : string) :
  PyStr.startswith s p = true →
  s = p +:+ PyStr.slice_from (String.length p) s.
Proof.
  unfold PyStr.startswith. revert s.
  induction p as [|c p IH]; intros s H; [now destruct s |].
  destruct s as [|d s]; [discriminate |]. simpl in H.
  destruct (ascii_dec c d) as [<- |]; [| discriminate].
  rewrite append_cons. simpl PyStr.slice_from. now rewrite <- (IH s H).
Qed.

(** X1. A pair that [parse_s3_path] returns spells the path back: the
    bucket holds no ['/'], and the path is [s3://bucket/key], or
    [s3://bucket] with the key empty. *)
Theorem parse_s3_path_inv (s3_path b k : string) :
  parse_s3_path s3_path = Val (b, k) →
  PyStr.contains "/" b = false
  ∧ (s3_path = "s3://" +:+ b +:+ "/" +:+ k
     ∨ (s3_path = "s3://" +:+ b ∧ k = "")).
Proof.
  intros H.
  destruct (PyStr.startswith s3_path "s3://") eqn:Hs.
  2: { rewrite (parse_no_scheme _ Hs) in H. discriminate. }
  pose proof (startswith_inv "s3://" s3_path Hs) as Heq.
  simpl String.length in Heq. rewrite Heq in H.
  rewrite parse_s3_path_scheme in H. rewrite Heq.
  destruct (split_one_inv "/" (PyStr.slice_from 5 s3_path))
    as [[Hsp Hc] | (b' & k' & Hsp & Hc & Hrest)]; rewrite Hsp in H.
  - injection H as <- <-. split; [exact Hc |]. right. now split.
  - injection H as <- <-. split; [exact Hc |]. left. now rewrite Hrest.
Qed.

Lemma parse_s3_path_inv_witness :
  parse_s3_path "s3://bucket/dir/data.csv" = Val ("bucket", "dir/data.csv")
  ∧ PyStr.contains "/" "bucket" = false
  ∧ ("s3://bucket/dir/data.csv" = "s3://" +:+ "bucket" +:+ "/" +:+ "dir/data.csv"
     ∨ ("s3://bucket/dir/data.csv" = "s3://" +:+ "bucket" ∧ "dir/data.csv" = "")).
Proof.
  split; [reflexivity |].
  apply (parse_s3_path_inv "s3://bucket/dir/data.csv" "bucket" "dir/data.csv").
  reflexivity.
Defined.

(** X2. [parse_s3_path] has two outcomes only: a pair, for the strings
    that start with [s3://] (an empty bucket included), and the
    [ValueError] for the others; the [IndexError] of [parts[0]] never
    shows. *)
Theorem parse_s3_path_outcomes (s3_path : string) :
  (PyStr.startswith s3_path "s3://" = true
   ∧ ∃ b k, parse_s3_path s3_path = Val (b, k))
  ∨ (PyStr.startswith s3_path "s3://" = false
     ∧ parse_s3_path s3_path
       = Raise (ValueError "S3 path must start with 's3://'")).
Proof.
  destruct (PyStr.startswith s3_path "s3://") eqn:Hs.
  - left. split; [reflexivity | now apply parse_s3_path_accepts].
  - right. split; [reflexivity | now apply parse_no_scheme].
Qed.

(** ** The [except] blocks, run *)

Lemma try_except_std {A : Type} (body : M A) (marker : A) (what : string)
    (w : World) :
  try_except body (std_handlers marker what) w
  = match body w with
    | (Val a, w') => (Val a, w')
    | (Raise e, w') => handled marker what e w'
    end.
Proof.
  unfold try_except, handled. destruct (body w) as [[a|e] w']; [reflexivity |].
  simpl. destruct (is_ClientError e); [reflexivity |].
  now destruct (is_Exception e).
Qed.

Lemma handled_world {A : Type} (marker : A) (what : string) (e : exn)
    (w : World) :
  (handled marker what e w).2 = w
  ∨ ∃ msg, handled marker what e w = (Val marker, add_log (ERROR, msg) w).
Proof.
  unfold handled. destruct (is_ClientError e); [right; eauto |].
  destruct (is_Exception e); [right; eauto | now left].
Qed.

(** A property of the final world that logging does not disturb passes
    from the [try] block to the whole statement. *)
Lemma try_std_invariant {A : Type} (P : World → Prop) (body : M A)
    (marker : A) (what : string) (w : World) :
  (∀ r w', P w' → P (add_log r w')) →
  P (body w).2 → P (try_except body (std_handlers marker what) w).2.
Proof.
  intros Hlog Hb. rewrite try_except_std.
  destruct (body w) as [[a|e] w1]; simpl in *; [exact Hb |].
  destruct (handled_world marker what e w1) as [-> | [msg ->]]; [exact Hb |].
  now apply Hlog.
Qed.

(** The five operations, with their [except] clauses in the shared
    shape. *)
Lemma upload_eq (E : Env) (l s : string) (w : World) :
  upload_csv_to_s3 E l s w
  = if PyStr.truthy l && bool_decide (l ∈ fs w)
    then try_except (upload_csv_to_s3_try E l s)
           (std_handlers false "Error uploading file to S3: ") w
    else (Val false, add_log (ERROR, "Local file not found: " +:+ l) w).
Proof.
  unfold upload_csv_to_s3, os_path_exists, mbind, M_bind.
  now destruct (PyStr.truthy l && bool_decide (l ∈ fs w)).
Qed.

Lemma download_eq (E : Env) (s d : string) :
  download_csv_from_s3 E s d
  = try_except (download_csv_from_s3_try E s d)
      (std_handlers None "Error downloading file from S3: ").
Proof. reflexivity. Qed.

Lemma list_eq (E : Env) (s : string) :
  list_csv_files_in_s3 E s
  = try_except (list_csv_files_in_s3_try E s)
      (std_handlers [] "Error listing files in S3: ").
Proof. reflexivity. Qed.

Lemma read_eq (E : Env) (s : string) :
  read_csv_from_s3 E s
  = try_except (read_csv_from_s3_try E s)
      (std_handlers None "Error reading CSV from S3: ").
Proof. reflexivity. Qed.

Lemma write_eq (E : Env) (df : DataFrame) (s : string) :
  write_dataframe_to_s3 E df s
  = try_except (write_dataframe_to_s3_try E df s)
      (std_handlers false "Error writing DataFrame to S3: ").
Proof. reflexivity. Qed.

(** ** A path without the scheme *)

(** The world after the one record an unparsable path leaves in the
    log. *)
Lemma bad_path_try {A : Type} (body : string * string → M A) (marker : A)
    (what s : string) (w : World) :
  PyStr.startswith s "s3://" = false →
  try_except (lift (parse_s3_path s) ≫= body) (std_handlers marker what) w
  = (Val marker,
     add_log (ERROR, "Unexpected error: S3 path must start with 's3://'") w).
Proof.
  intros Hs. rewrite try_except_std. unfold mbind, M_bind, lift.
  now rewrite (parse_no_scheme s Hs).
Qed.

(** X3. Given a path that does not start with [s3://], each operation
    returns its failure marker after logging one ["Unexpected error"]
    record and nothing else: no client is built, no request is sent, no
    directory is made, nothing is printed.  (For an upload the local file
    has to be there, or the missing file is reported first.) *)
Theorem bad_path_fails_before_any_call (E : Env) (w : World) (s3_path : string) :
  PyStr.startswith s3_path "s3://" = false →
  let w' := add_log
              (ERROR, "Unexpected error: S3 path must start with 's3://'") w in
  (∀ local_file_path, (os_path_exists local_file_path w).1 = Val true →
     upload_csv_to_s3 E local_file_path s3_path w = (Val false, w'))
  ∧ (∀ local_directory,
       download_csv_from_s3 E s3_path local_directory w = (Val None, w'))
  ∧ list_csv_files_in_s3 E s3_path w = (Val [], w')
  ∧ read_csv_from_s3 E s3_path w = (Val None, w')
  ∧ (∀ df, write_dataframe_to_s3 E df s3_path w = (Val false, w')).
Proof.
  intros Hs w'. repeat split.
  - intros l Hex. rewrite upload_eq. injection Hex as ->.
    unfold upload_csv_to_s3_try. now apply bad_path_try.
  - intros d. rewrite download_eq. unfold download_csv_from_s3_try.
    now apply bad_path_try.
  - rewrite list_eq. unfold list_csv_files_in_s3_try. now apply bad_path_try.
  - rewrite read_eq. unfold read_csv_from_s3_try. now apply bad_path_try.
  - intros df. rewrite write_eq. unfold write_dataframe_to_s3_try.
    now apply bad_path_try.
Qed.

Lemma bad_path_fails_before_any_call_witness :
  PyStr.startswith "bucket/dir/data.csv" "s3://" = false
  ∧ list_csv_files_in_s3 (env_ok ["a.csv"] "") "bucket/dir/data.csv" world_data
    = (Val [],
       add_log (ERROR, "Unexpected error: S3 path must start with 's3://'")
         world_data)
  ∧ download_csv_from_s3 (env_ok ["a.csv"] "") "bucket/dir/data.csv" "out"
      world_data
    = (Val None,
       add_log (ERROR, "Unexpected error: S3 path must start with 's3://'")
         world_data).
Proof.
  split; [reflexivity |].
  destruct (bad_path_fails_before_any_call (env_ok ["a.csv"] "") world_data
              "bucket/dir/data.csv" eq_refl) as (_ & Hd & Hl & _).
  split; [exact Hl | exact (Hd "out")].
Defined.

(** ** What the operations leave alone *)

Section Frame.

Context {X : Type} (f : World → X).
Hypothesis f_call : ∀ c w, f (add_call c w) = f w.
Hypothesis f_log : ∀ r w, f (add_log r w) = f w.

Lemma pres_mret {A : Type} (a : A) : preserves f (mret a : M A).
Proof. now intros w. Qed.

Lemma pres_bind {A B : Type} (m : M A) (k : A → M B) :
  preserves f m → (∀ a, preserves f (k a)) → preserves f (m ≫= k).
Proof.
  intros Hm Hk w. unfold mbind, M_bind. specialize (Hm w).
  destruct (m w) as [[a|e] w1]; simpl in *; [| exact Hm].
  now rewrite (Hk a w1).
Qed.

Lemma pres_lift {A : Type} (r : Res A) : preserves f (lift r).
Proof. now intros w. Qed.

Lemma pres_logger (lvl : Level) (msg : string) : preserves f (logger lvl msg).
Proof. intros w. apply f_log. Qed.

Lemma pres_exists (p : string) : preserves f (os_path_exists p).
Proof. now intros w. Qed.

Lemma pres_call_unit (c : Call) (answer : World → option exn)
    (effect : World → World) :
  (∀ w, f (effect w) = f w) → preserves f (call_unit c answer effect).
Proof.
  intros He w. unfold call_unit.
  destruct (answer w); simpl; [apply f_call | now rewrite He, f_call].
Qed.

Lemma pres_call_val {A : Type} (c : Call) (answer : World → Res A) :
  preserves f (call_val c answer).
Proof. intros w. apply f_call. Qed.

Lemma pres_try_std {A : Type} (body : M A) (marker : A) (what : string) :
  preserves f body → preserves f (try_except body (std_handlers marker what)).
Proof.
  intros Hb w.
  apply (try_std_invariant (λ w', f w' = f w)); [| apply Hb].
  intros r w' <-. apply f_log.
Qed.

End Frame.

Lemma upload_preserves {X : Type} (f : World → X) (E : Env) (l s : string) :
  (∀ c w, f (add_call c w) = f w) → (∀ r w, f (add_log r w) = f w) →
  preserves f (upload_csv_to_s3 E l s).
Proof.
  intros Hc Hl. unfold upload_csv_to_s3.
  apply pres_bind; [apply pres_exists | intros found].
  destruct found; simpl.
  - change upload_csv_to_s3_except
      with (std_handlers false "Error uploading file to S3: ").
    apply pres_try_std; [assumption.. |].
    unfold upload_csv_to_s3_try, client, upload_file.
    apply pres_bind; [now apply pres_lift | intros [b p]].
    apply pres_bind; [now apply pres_call_unit | intros _].
    apply pres_bind; [now apply pres_logger | intros _].
    apply pres_bind; [now apply pres_call_unit | intros _].
    apply pres_bind; [now apply pres_logger | intros _].
    apply pres_mret.
  - apply pres_bind; [now apply pres_logger | intros _]. apply pres_mret.
Qed.

Lemma list_preserves {X : Type} (f : World → X) (E : Env) (s : string) :
  (∀ c w, f (add_call c w) = f w) → (∀ r w, f (add_log r w) = f w) →
  preserves f (list_csv_files_in_s3 E s).
Proof.
  intros Hc Hl. rewrite list_eq. apply pres_try_std; [assumption.. |].
  unfold list_csv_files_in_s3_try, client, list_objects_v2.
  apply pres_bind; [now apply pres_lift | intros [b p]].
  apply pres_bind; [now apply pres_call_unit | intros _].
  apply pres_bind; [now apply pres_logger | intros _].
  apply pres_bind; [now apply pres_call_val | intros response].
  apply pres_mret.
Qed.

Lemma read_preserves {X : Type} (f : World → X) (E : Env) (s : string) :
  (∀ c w, f (add_call c w) = f w) → (∀ r w, f (add_log r w) = f w) →
  preserves f (read_csv_from_s3 E s).
Proof.
  intros Hc Hl. rewrite read_eq. apply pres_try_std; [assumption.. |].
  unfold read_csv_from_s3_try, client, get_object.
  apply pres_bind; [now apply pres_lift | intros [b p]].
  apply pres_bind; [now apply pres_call_unit | intros _].
  apply pres_bind; [now apply pres_logger | intros _].
  apply pres_bind; [now apply pres_call_val | intros body].
  apply pres_bind; [now apply pres_lift | intros df].
  apply pres_bind; [now apply pres_logger | intros _].
  apply pres_mret.
Qed.

Lemma write_preserves {X : Type} (f : World → X) (E : Env) (df : DataFrame)
    (s : string) :
  (∀ c w, f (add_call c w) = f w) → (∀ r w, f (add_log r w) = f w) →
  preserves f (write_dataframe_to_s3 E df s).
Proof.
  intros Hc Hl. rewrite write_eq. apply pres_try_std; [assumption.. |].
  unfold write_dataframe_to_s3_try, client, put_object.
  apply pres_bind; [now apply pres_lift | intros [b p]].
  apply pres_bind; [now apply pres_lift | intros csv].
  apply pres_bind; [now apply pres_call_unit | intros _].
  apply pres_bind; [now apply pres_logger | intros _].
  apply pres_bind; [now apply pres_call_unit | intros _].
  apply pres_bind; [now apply pres_logger | intros _].
  apply pres_mret.
Qed.

Lemma download_preserves_stdout (E : Env) (s d : string) :
  preserves stdout (download_csv_from_s3 E s d).
Proof.
  rewrite download_eq. apply pres_try_std; [reflexivity.. |].
  unfold download_csv_from_s3_try, os_makedirs, client, download_file.
  apply pres_bind; [now apply pres_lift | intros [b p]].
  apply pres_bind; [now apply pres_exists | intros found].
  apply pres_bind;
    [destruct found; simpl; [apply pres_mret | now apply pres_call_unit]
    | intros _].
  apply pres_bind; [now apply pres_call_unit | intros _].
  apply pres_bind; [now apply pres_logger | intros _].
  apply pres_bind; [now apply pres_call_unit | intros _].
  apply pres_bind; [now apply pres_logger | intros _].
  apply pres_mret.
Qed.

(** X4. Uploading, listing, reading and writing never change the local
    file system, whatever the backend does; and none of the five
    operations prints. *)
Theorem operations_leave_local_state (E : Env) (w : World) :
  (∀ l s, fs (upload_csv_to_s3 E l s w).2 = fs w)
  ∧ (∀ s, fs (list_csv_files_in_s3 E s w).2 = fs w)
  ∧ (∀ s, fs (read_csv_from_s3 E s w).2 = fs w)
  ∧ (∀ df s, fs (write_dataframe_to_s3 E df s w).2 = fs w)
  ∧ (∀ l s, stdout (upload_csv_to_s3 E l s w).2 = stdout w)
  ∧ (∀ s d, stdout (download_csv_from_s3 E s d w).2 = stdout w)
  ∧ (∀ s, stdout (list_csv_files_in_s3 E s w).2 = stdout w)
  ∧ (∀ s, stdout (read_csv_from_s3 E s w).2 = stdout w)
  ∧ (∀ df s, stdout (write_dataframe_to_s3 E df s w).2 = stdout w).
Proof.
  repeat split; intros.
  - now apply (upload_preserves fs).
  - now apply (list_preserves fs).
  - now apply (read_preserves fs).
  - now apply (write_preserves fs).
  - now apply (upload_preserves stdout).
  - apply download_preserves_stdout.
  - now apply (list_preserves stdout).
  - now apply (read_preserves stdout).
  - now apply (write_preserves stdout).
Qed.

(** ** One request per operation *)

Lemma calls_add_log (r : Level * string) (w : World) :
  calls (add_log r w) = calls w.
Proof. reflexivity. Qed.

Ltac trace_none :=
  exists []; split; [now rewrite app_nil_r | now left].

Ltac trace_some :=
  eexists; split;
  [ rewrite <- ?app_assoc; reflexivity
  | right; repeat eexists; try eassumption;
    first [ now (right; left) | now (right; right) ] ].

Lemma upload_try_calls (E : Env) (l s : string) (w : World) :
  ∃ new, calls (upload_csv_to_s3_try E l s w).2 = calls w ++ new
    ∧ (new = [] ∨ ∃ b p, parse_s3_path s = Val (b, p)
                   ∧ single_request
                       (CallUploadFile l b
                          ((if PyStr.truthy p && negb (PyStr.endswith p "/")
                            then p +:+ "/" else p)
                           +:+ posixpath.basename l)) new).
Proof.
  unfold upload_csv_to_s3_try, client, upload_file. unfold_M.
  destruct (parse_s3_path s) as [[b p]|e0] eqn:Hp; simpl; [| trace_none].
  destruct (boto3_client E w "s3"); simpl; [trace_some |].
  destruct (s3_upload_file E _ _ _ _); simpl; trace_some.
Qed.

Lemma download_try_calls (E : Env) (s d : string) (w : World) :
  (os_path_exists d w).1 = Val true →
  ∃ new, calls (download_csv_from_s3_try E s d w).2 = calls w ++ new
    ∧ (new = [] ∨ ∃ b k, parse_s3_path s = Val (b, k)
                   ∧ single_request
                       (CallDownloadFile b k
                          (posixpath.join d (posixpath.basename k))) new).
Proof.
  intros Hex. injection Hex as Hex.
  unfold download_csv_from_s3_try, client, download_file. unfold_M.
  destruct (parse_s3_path s) as [[b k]|e0] eqn:Hp; simpl; [| trace_none].
  rewrite Hex. simpl.
  destruct (boto3_client E w "s3"); simpl; [trace_some |].
  destruct (s3_download_file E _ _ _ _); simpl; trace_some.
Qed.

Lemma list_try_calls (E : Env) (s : string) (w : World) :
  ∃ new, calls (list_csv_files_in_s3_try E s w).2 = calls w ++ new
    ∧ (new = [] ∨ ∃ b p, parse_s3_path s = Val (b, p)
                   ∧ single_request (CallListObjectsV2 b p) new).
Proof.
  unfold list_csv_files_in_s3_try, client, list_objects_v2. unfold_M.
  destruct (parse_s3_path s) as [[b p]|e0] eqn:Hp; simpl; [| trace_none].
  destruct (boto3_client E w "s3"); simpl; [trace_some |].
  destruct (s3_list_objects_v2 E _ _ _); simpl; trace_some.
Qed.

Lemma read_try_calls (E : Env) (s : string) (w : World) :
  ∃ new, calls (read_csv_from_s3_try E s w).2 = calls w ++ new
    ∧ (new = [] ∨ ∃ b k, parse_s3_path s = Val (b, k)
                   ∧ single_request (CallGetObject b k) new).
Proof.
  unfold read_csv_from_s3_try, client, get_object. unfold_M.
  destruct (parse_s3_path s) as [[b k]|e0] eqn:Hp; simpl; [| trace_none].
  destruct (boto3_client E w "s3"); simpl; [trace_some |].
  destruct (s3_get_object E _ _ _); simpl; [| trace_some].
  destruct (pd_read_csv E _); simpl; trace_some.
Qed.

Lemma write_try_calls (E : Env) (df : DataFrame) (s : string) (w : World) :
  ∃ new, calls (write_dataframe_to_s3_try E df s w).2 = calls w ++ new
    ∧ (new = [] ∨ ∃ b k csv, parse_s3_path s = Val (b, k)
                   ∧ df_to_csv E df false = Val csv
                   ∧ single_request (CallPutObject b k csv) new).
Proof.
  unfold write_dataframe_to_s3_try, client, put_object. unfold_M.
  destruct (parse_s3_path s) as [[b k]|e0] eqn:Hp; simpl; [| trace_none].
  destruct (df_to_csv E df false) as [csv|e1] eqn:Hcsv; simpl; [| trace_none].
  destruct (boto3_client E w "s3"); simpl; [trace_some |].
  destruct (s3_put_object E _ _ _ _); simpl; trace_some.
Qed.

(** X5. An operation talks to the backend at most once: the calls it adds
    are none, the client alone, or the client followed by its one request
    (no retry, no second listing page), for the bucket and key parsed from
    the path; the key of an upload is the parsed prefix, with a ['/'] added
    when it is not empty and lacks one, followed by the base name of the
    local path.  For a download this holds when the directory is already
    there, so that [makedirs] is not called. *)
Theorem one_request_per_operation (E : Env) (w : World) :
  (∀ l s, ∃ new,
      calls (upload_csv_to_s3 E l s w).2 = calls w ++ new
      ∧ (new = [] ∨ ∃ b p, parse_s3_path s = Val (b, p)
                     ∧ single_request
                         (CallUploadFile l b
                            ((if PyStr.truthy p && negb (PyStr.endswith p "/")
                              then p +:+ "/" else p)
                             +:+ posixpath.basename l)) new))
  ∧ (∀ s d, (os_path_exists d w).1 = Val true → ∃ new,
      calls (download_csv_from_s3 E s d w).2 = calls w ++ new
      ∧ (new = [] ∨ ∃ b k, parse_s3_path s = Val (b, k)
                     ∧ single_request
                         (CallDownloadFile b k
                            (posixpath.join d (posixpath.basename k))) new))
  ∧ (∀ s, ∃ new,
      calls (list_csv_files_in_s3 E s w).2 = calls w ++ new
      ∧ (new = [] ∨ ∃ b p, parse_s3_path s = Val (b, p)
                     ∧ single_request (CallListObjectsV2 b p) new))
  ∧ (∀ s, ∃ new,
      calls (read_csv_from_s3 E s w).2 = calls w ++ new
      ∧ (new = [] ∨ ∃ b k, parse_s3_path s = Val (b, k)
                     ∧ single_request (CallGetObject b k) new))
  ∧ (∀ df s, ∃ new,
      calls (write_dataframe_to_s3 E df s w).2 = calls w ++ new
      ∧ (new = [] ∨ ∃ b k csv, parse_s3_path s = Val (b, k)
                     ∧ df_to_csv E df false = Val csv
                     ∧ single_request (CallPutObject b k csv) new)).
Proof.
  repeat split.
  - intros l s. rewrite upload_eq.
    destruct (PyStr.truthy l && bool_decide (l ∈ fs w)); [| trace_none].
    apply (try_std_invariant (λ w', ∃ new, calls w' = calls w ++ new ∧ _));
      [intros r w' H; exact H | apply upload_try_calls].
  - intros s d Hex. rewrite download_eq.
    apply (try_std_invariant (λ w', ∃ new, calls w' = calls w ++ new ∧ _));
      [intros r w' H; exact H | now apply download_try_calls].
  - intros s. rewrite list_eq.
    apply (try_std_invariant (λ w', ∃ new, calls w' = calls w ++ new ∧ _));
      [intros r w' H; exact H | apply list_try_calls].
  - intros s. rewrite read_eq.
    apply (try_std_invariant (λ w', ∃ new, calls w' = calls w ++ new ∧ _));
      [intros r w' H; exact H | apply read_try_calls].
  - intros df s. rewrite write_eq.
    apply (try_std_invariant (λ w', ∃ new, calls w' = calls w ++ new ∧ _));
      [intros r w' H; exact H | apply write_try_calls].
Qed.

Lemma one_request_per_operation_witness :
  (os_path_exists "out" world_out).1 = Val true
  ∧ (∃ new,
      calls (upload_csv_to_s3 env_denied "data.csv" "s3://bucket/dir" world_out).2
      = calls world_out ++ new
      ∧ (new = [] ∨ ∃ b p,
           parse_s3_path "s3://bucket/dir" = Val (b, p)
           ∧ single_request
               (CallUploadFile "data.csv" b
                  ((if PyStr.truthy p && negb (PyStr.endswith p "/")
                    then p +:+ "/" else p)
                   +:+ posixpath.basename "data.csv")) new))
  ∧ ∃ new,
      calls (download_csv_from_s3 env_denied "s3://bucket/dir/data.csv" "out"
               world_out).2 = calls world_out ++ new
      ∧ (new = [] ∨ ∃ b k,
           parse_s3_path "s3://bucket/dir/data.csv" = Val (b, k)
           ∧ single_request
               (CallDownloadFile b k
                  (posixpath.join "out" (posixpath.basename k))) new).
Proof.
  split; [reflexivity |]. split.
  - apply (proj1 (one_request_per_operation env_denied world_out)
             "data.csv" "s3://bucket/dir").
  - apply (proj1 (proj2 (one_request_per_operation env_denied world_out))
             "s3://bucket/dir/data.csv" "out").
    reflexivity.
Defined.

(** ** Reading a successful run backwards *)

Lemma lift_val_inv {A : Type} (r : Res A) (a : A) (w w' : World) :
  lift r w = (Val a, w') → r = Val a ∧ w' = w.
Proof. now intros [= -> <-]. Qed.

Lemma mret_val_inv {A : Type} (a b : A) (w w' : World) :
  (mret a : M A) w = (Val b, w') → b = a ∧ w' = w.
Proof. now intros [= -> <-]. Qed.

Lemma logger_val_inv (lvl : Level) (msg : string) (u : ()) (w w' : World) :
  logger lvl msg w = (Val u, w') → w' = add_log (lvl, msg) w.
Proof. now intros [= <-]. Qed.

Lemma call_unit_val_inv (c : Call) (answer : World → option exn)
    (effect : World → World) (u : ()) (w w' : World) :
  call_unit c answer effect w = (Val u, w') →
  answer w = None ∧ w' = effect (add_call c w).
Proof.
  unfold call_unit. destruct (answer w); [discriminate |]. now intros [= <-].
Qed.

Lemma call_val_val_inv {A : Type} (c : Call) (answer : World → Res A) (a : A)
    (w w' : World) :
  call_val c answer w = (Val a, w') → answer w = Val a ∧ w' = add_call c w.
Proof. now intros [= -> <-]. Qed.

Lemma try_std_val_inv {A : Type} (body : M A) (marker : A) (what : string)
    (r : A) (w w' : World) :
  try_except body (std_handlers marker what) w = (Val r, w') →
  r ≠ marker → body w = (Val r, w').
Proof.
  rewrite try_except_std. destruct (body w) as [[a|e] w1]; [easy |].
  unfold handled. intros H Hr.
  destruct (is_ClientError e); [| destruct (is_Exception e)]; congruence.
Qed.

(** [posixpath.basename]: what follows the last ['/']. *)

Lemma rfind_lower_bound (c : ascii) (s : string) : (-1 ≤ PyStr.rfind c s)%Z.
Proof.
  induction s as [|d s IH]; simpl; [lia |].
  destruct (0 <=? PyStr.rfind c s)%Z eqn:H; [apply Z.leb_le in H; lia |].
  destruct (Ascii.eqb d c); lia.
Qed.

Lemma basename_no_sep (p : string) :
  PyStr.contains "/" (posixpath.basename p) = false.
Proof.
  unfold posixpath.basename. induction p as [|d p IH]; [reflexivity |].
  pose proof (rfind_lower_bound "/" p) as Hlb. simpl PyStr.rfind.
  destruct (0 <=? PyStr.rfind "/" p)%Z eqn:H.
  - apply Z.leb_le in H.
    replace (Z.to_nat (PyStr.rfind "/" p + 1 + 1))
      with (S (Z.to_nat (PyStr.rfind "/" p + 1))) by lia.
    exact IH.
  - apply Z.leb_gt in H.
    assert (Hr : PyStr.rfind "/" p = (-1)%Z) by lia.
    rewrite Hr in IH. simpl in IH.
    destruct (Ascii.eqb d "/") eqn:Hd; simpl; [exact IH |].
    now rewrite Hd, IH.
Qed.

Lemma slice_from_suffix (n : nat) (s : string) :
  ∃ pre, s = pre +:+ PyStr.slice_from n s.
Proof.
  revert s. induction n as [|n IH]; intros s; [now exists EmptyString |].
  destruct s as [|c s]; [now exists EmptyString |].
  destruct (IH s) as [pre Hpre]. exists (String c pre).
  simpl PyStr.slice_from. rewrite append_cons. now rewrite <- Hpre.
Qed.

Lemma no_sep_startswith (f : string) :
  PyStr.contains "/" f = false → PyStr.startswith f "/" = false.
Proof.
  destruct f as [|c f]; [reflexivity |]. simpl PyStr.contains.
  intros H. apply orb_false_iff in H as [Hc _].
  unfold PyStr.startswith.
  change (String.prefix "/" (String c f))
    with (if ascii_dec "/" c then String.prefix "" f else false).
  destruct (ascii_dec "/" c) as [<- |]; [discriminate | reflexivity].
Qed.

Lemma join_basename (d k : string) :
  PyStr.truthy d = true →
  posixpath.join d (posixpath.basename k)
  = d +:+ (if PyStr.endswith d "/" then "" else "/") +:+ posixpath.basename k.
Proof.
  intros Hd. unfold posixpath.join.
  rewrite (no_sep_startswith _ (basename_no_sep k)), Hd. simpl negb.
  rewrite orb_false_l. now destruct (PyStr.endswith d "/").
Qed.

(** X6. A download that returns a path returns the directory it was
    given, a ['/'] if the directory lacks one, and the base name of the
    key; by then that file and the directory exist locally, and the last
    call made was the transfer of that key into that file. *)
Theorem download_success (E : Env) (w w' : World) (s3_path local_directory p : string) :
  download_csv_from_s3 E s3_path local_directory w = (Val (Some p), w') →
  ∃ b k,
    parse_s3_path s3_path = Val (b, k)
    ∧ p = local_directory
          +:+ (if PyStr.endswith local_directory "/" then "" else "/")
          +:+ posixpath.basename k
    ∧ p ∈ fs w' ∧ local_directory ∈ fs w'
    ∧ last (calls w') = Some (CallDownloadFile b k p).
Proof.
  intros Hrun. rewrite download_eq in Hrun.
  apply try_std_val_inv in Hrun; [| discriminate].
  unfold download_csv_from_s3_try, client, download_file in Hrun.
  apply bind_val_inv in Hrun as ([b k] & w1 & Hp & Hrun).
  apply lift_val_inv in Hp as [Hp ->].
  apply bind_val_inv in Hrun as (found & w2 & Hex & Hrun).
  injection Hex as <- <-.
  apply bind_val_inv in Hrun as (u & w3 & Hmk & Hrun).
  apply bind_val_inv in Hrun as (u1 & w4 & Hc & Hrun).
  apply call_unit_val_inv in Hc as [_ ->].
  apply bind_val_inv in Hrun as (u2 & w5 & Hl & Hrun).
  apply logger_val_inv in Hl as ->.
  apply bind_val_inv in Hrun as (u3 & w6 & Hd & Hrun).
  apply call_unit_val_inv in Hd as [_ ->].
  apply bind_val_inv in Hrun as (u4 & w7 & Hl & Hrun).
  apply logger_val_inv in Hl as ->.
  apply mret_val_inv in Hrun as [[= ->] ->].
  assert (Hd : PyStr.truthy local_directory = true ∧ local_directory ∈ fs w3).
  { destruct (PyStr.truthy local_directory && bool_decide (local_directory ∈ fs w))
      eqn:Hfound; simpl in Hmk.
    - apply mret_val_inv in Hmk as [_ ->].
      apply andb_true_iff in Hfound as [Ht Hin].
      split; [exact Ht | now apply bool_decide_eq_true in Hin].
    - apply os_makedirs_val_inv in Hmk as (Ht & _ & ->).
      split; [exact Ht | simpl; set_solver]. }
  destruct Hd as [Ht Hin]. exists b, k.
  split; [exact Hp |]. split; [now apply join_basename |].
  simpl. split; [set_solver |]. split; [set_solver |].
  unfold id. simpl. apply last_snoc.
Qed.

Lemma download_success_witness :
  download_csv_from_s3 (env_ok [] "") "s3://bucket/dir/data.csv" "out" world_empty
  = (Val (Some "out/data.csv"),
     (download_csv_from_s3 (env_ok [] "") "s3://bucket/dir/data.csv" "out"
        world_empty).2)
  ∧ ∃ b k,
      parse_s3_path "s3://bucket/dir/data.csv" = Val (b, k)
      ∧ "out/data.csv"
        = "out" +:+ (if PyStr.endswith "out" "/" then "" else "/")
                +:+ posixpath.basename k
      ∧ "out/data.csv"
        ∈ fs (download_csv_from_s3 (env_ok [] "") "s3://bucket/dir/data.csv"
                "out" world_empty).2
      ∧ "out"
        ∈ fs (download_csv_from_s3 (env_ok [] "") "s3://bucket/dir/data.csv"
                "out" world_empty).2
      ∧ last (calls (download_csv_from_s3 (env_ok [] "")
                       "s3://bucket/dir/data.csv" "out" world_empty).2)
        = Some (CallDownloadFile b k "out/data.csv").
Proof.
  split; [reflexivity |].
  apply (download_success (env_ok [] "") world_empty _
           "s3://bucket/dir/data.csv" "out" "out/data.csv").
  reflexivity.
Defined.

(** X7. An upload that returns [True] found the local file, parsed the
    path, built the client and ended with one [upload_file] call; the key
    it used is the parsed prefix, as it is or with a ['/'] added, followed
    by the base name of the local path, which holds no ['/'] and is the
    tail of that path: no directory of the local path enters the key. *)
Theorem upload_success (E : Env) (w w' : World) (local_file_path s3_path : string) :
  upload_csv_to_s3 E local_file_path s3_path w = (Val true, w') →
  (os_path_exists local_file_path w).1 = Val true
  ∧ ∃ b p prefix,
      parse_s3_path s3_path = Val (b, p)
      ∧ (prefix = p ∨ prefix = p +:+ "/")
      ∧ calls w' = calls w ++
          [CallClient "s3";
           CallUploadFile local_file_path b
             (prefix +:+ posixpath.basename local_file_path)]
      ∧ PyStr.contains "/" (posixpath.basename local_file_path) = false
      ∧ ∃ dir, local_file_path = dir +:+ posixpath.basename local_file_path.
Proof.
  intros Hrun. rewrite upload_eq in Hrun. unfold os_path_exists. simpl.
  destruct (PyStr.truthy local_file_path
            && bool_decide (local_file_path ∈ fs w)); [| discriminate].
  split; [reflexivity |].
  apply try_std_val_inv in Hrun; [| discriminate].
  unfold upload_csv_to_s3_try, client, upload_file in Hrun.
  apply bind_val_inv in Hrun as ([b p] & w1 & Hp & Hrun).
  apply lift_val_inv in Hp as [Hp ->].
  apply bind_val_inv in Hrun as (u1 & w2 & Hc & Hrun).
  apply call_unit_val_inv in Hc as [_ ->].
  apply bind_val_inv in Hrun as (u2 & w3 & Hl & Hrun).
  apply logger_val_inv in Hl as ->.
  apply bind_val_inv in Hrun as (u3 & w4 & Hu & Hrun).
  apply call_unit_val_inv in Hu as [_ ->].
  apply bind_val_inv in Hrun as (u4 & w5 & Hl & Hrun).
  apply logger_val_inv in Hl as ->.
  apply mret_val_inv in Hrun as [_ ->].
  exists b, p. eexists. split; [exact Hp |].
  split; [| split; [unfold id; simpl; rewrite <- app_assoc; reflexivity |]].
  - destruct (PyStr.truthy p && negb (PyStr.endswith p "/")); auto.
  - split; [apply basename_no_sep | apply slice_from_suffix].
Qed.

Lemma upload_success_witness :
  upload_csv_to_s3 (env_ok [] "") "data.csv" "s3://bucket/dir" world_data
  = (Val true,
     (upload_csv_to_s3 (env_ok [] "") "data.csv" "s3://bucket/dir" world_data).2)
  ∧ (os_path_exists "data.csv" world_data).1 = Val true
  ∧ ∃ b p prefix,
      parse_s3_path "s3://bucket/dir" = Val (b, p)
      ∧ (prefix = p ∨ prefix = p +:+ "/")
      ∧ calls (upload_csv_to_s3 (env_ok [] "") "data.csv" "s3://bucket/dir"
                 world_data).2
        = calls world_data ++
            [CallClient "s3";
             CallUploadFile "data.csv" b
               (prefix +:+ posixpath.basename "data.csv")]
      ∧ PyStr.contains "/" (posixpath.basename "data.csv") = false
      ∧ ∃ dir, "data.csv" = dir +:+ posixpath.basename "data.csv".
Proof.
  split; [reflexivity |].
  apply (upload_success (env_ok [] "") world_data _ "data.csv" "s3://bucket/dir").
  reflexivity.
Defined.

(** ** Tables *)

(** X8. [read_csv_from_s3] returns a table exactly when the path parses,
    the client is built, [get_object] answers with a body for the parsed
    bucket and key, and [pd.read_csv] makes that table of the body. *)
Theorem read_success_iff (E : Env) (w : World) (s3_path : string)
    (df : DataFrame) :
  (read_csv_from_s3 E s3_path w).1 = Val (Some df)
  ↔ ∃ b k body,
      parse_s3_path s3_path = Val (b, k)
      ∧ boto3_client E w "s3" = None
      ∧ s3_get_object E (world_at_get b k w) b k = Val body
      ∧ pd_read_csv E body = Val df.
Proof.
  split.
  - destruct (read_csv_from_s3 E s3_path w) as [r w'] eqn:Hrun. simpl.
    intros ->. rewrite read_eq in Hrun.
    apply try_std_val_inv in Hrun; [| discriminate].
    unfold read_csv_from_s3_try, client, get_object in Hrun.
    apply bind_val_inv in Hrun as ([b k] & w1 & Hp & Hrun).
    apply lift_val_inv in Hp as [Hp ->].
    apply bind_val_inv in Hrun as (u1 & w2 & Hc & Hrun).
    apply call_unit_val_inv in Hc as [Hc ->].
    apply bind_val_inv in Hrun as (u2 & w3 & Hl & Hrun).
    apply logger_val_inv in Hl as ->.
    apply bind_val_inv in Hrun as (body & w4 & Hg & Hrun).
    apply call_val_val_inv in Hg as [Hg ->].
    apply bind_val_inv in Hrun as (df' & w5 & Hr & Hrun).
    apply lift_val_inv in Hr as [Hr ->].
    apply bind_val_inv in Hrun as (u3 & w6 & Hl & Hrun).
    apply logger_val_inv in Hl as ->.
    apply mret_val_inv in Hrun as [[= ->] _].
    exists b, k, body. repeat split; assumption.
  - intros (b & k & body & Hp & Hc & Hg & Hr).
    now apply (read_parses_body E w s3_path b k body df).
Qed.

(** X9. A write that returns [True] parsed the path, serialised the table
    with [index=False], built the client and ended with one [put_object]
    of exactly that text under the parsed bucket and key. *)
Theorem write_success (E : Env) (w w' : World) (df : DataFrame)
    (s3_path : string) :
  write_dataframe_to_s3 E df s3_path w = (Val true, w') →
  ∃ b k csv,
    parse_s3_path s3_path = Val (b, k)
    ∧ df_to_csv E df false = Val csv
    ∧ calls w' = calls w ++ [CallClient "s3"; CallPutObject b k csv].
Proof.
  intros Hrun. rewrite write_eq in Hrun.
  apply try_std_val_inv in Hrun; [| discriminate].
  unfold write_dataframe_to_s3_try, client, put_object in Hrun.
  apply bind_val_inv in Hrun as ([b k] & w1 & Hp & Hrun).
  apply lift_val_inv in Hp as [Hp ->].
  apply bind_val_inv in Hrun as (csv & w2 & Hcsv & Hrun).
  apply lift_val_inv in Hcsv as [Hcsv ->].
  apply bind_val_inv in Hrun as (u1 & w3 & Hc & Hrun).
  apply call_unit_val_inv in Hc as [_ ->].
  apply bind_val_inv in Hrun as (u2 & w4 & Hl & Hrun).
  apply logger_val_inv in Hl as ->.
  apply bind_val_inv in Hrun as (u3 & w5 & Hput & Hrun).
  apply call_unit_val_inv in Hput as [_ ->].
  apply bind_val_inv in Hrun as (u4 & w6 & Hl & Hrun).
  apply logger_val_inv in Hl as ->.
  apply mret_val_inv in Hrun as [_ ->].
  exists b, k, csv. repeat split; [assumption.. |].
  unfold id. simpl. now rewrite <- app_assoc.
Qed.

Lemma write_success_witness :
  write_dataframe_to_s3 (env_ok [] "a,b") (mkDataFrame ["a"; "b"] [])
    "s3://bucket/t.csv" world_empty
  = (Val true,
     (write_dataframe_to_s3 (env_ok [] "a,b") (mkDataFrame ["a"; "b"] [])
        "s3://bucket/t.csv" world_empty).2)
  ∧ ∃ b k csv,
      parse_s3_path "s3://bucket/t.csv" = Val (b, k)
      ∧ df_to_csv (env_ok [] "a,b") (mkDataFrame ["a"; "b"] []) false = Val csv
      ∧ calls (write_dataframe_to_s3 (env_ok [] "a,b")
                 (mkDataFrame ["a"; "b"] []) "s3://bucket/t.csv" world_empty).2
        = calls world_empty ++ [CallClient "s3"; CallPutObject b k csv].
Proof.
  split; [reflexivity |].
  apply (write_success (env_ok [] "a,b") world_empty _
           (mkDataFrame ["a"; "b"] []) "s3://bucket/t.csv").
  reflexivity.
Defined.

(** X10. When the table cannot be serialised, nothing reaches the
    backend: [to_csv] runs before the client is built, so the write
    returns [False] with one [ERROR] record and no call. *)
Theorem write_unserialisable (E : Env) (w : World) (df : DataFrame)
    (s3_path : string) (e : exn) :
  df_to_csv E df false = Raise e → is_Exception e = true →
  ∃ msg, write_dataframe_to_s3 E df s3_path w
         = (Val false, add_log (ERROR, msg) w).
Proof.
  intros Hcsv He. rewrite write_eq, try_except_std.
  unfold write_dataframe_to_s3_try, mbind, M_bind, lift.
  destruct (parse_s3_path s3_path) as [[b k]|e0] eqn:Hp.
  - rewrite Hcsv. unfold handled. rewrite He.
    destruct (is_ClientError e); eauto.
  - pose proof (parse_s3_path_raises s3_path e0 Hp) as He0.
    unfold handled. rewrite He0. destruct (is_ClientError e0); eauto.
Qed.

Lemma write_unserialisable_witness :
  df_to_csv env_unserialisable (mkDataFrame ["a"] [["1"]]) false
  = Raise (OtherError "UnicodeEncodeError" "codec can't encode")
  ∧ is_Exception (OtherError "UnicodeEncodeError" "codec can't encode") = true
  ∧ ∃ msg, write_dataframe_to_s3 env_unserialisable (mkDataFrame ["a"] [["1"]])
             "s3://bucket/t.csv" world_empty
           = (Val false, add_log (ERROR, msg) world_empty).
Proof.
  split; [reflexivity |]. split; [reflexivity |].
  apply (write_unserialisable env_unserialisable world_empty
           (mkDataFrame ["a"] [["1"]]) "s3://bucket/t.csv"
           (OtherError "UnicodeEncodeError" "codec can't encode"));
    reflexivity.
Defined.


(** ** Listed paths are paths again *)

Lemma parse_bucket_no_sep (s b k : string) :
  parse_s3_path s = Val (b, k) → PyStr.contains "/" b = false.
Proof.
  intros H. destruct (PyStr.startswith s "s3://") eqn:Hs.
  2: { rewrite (parse_no_scheme _ Hs) in H. discriminate. }
  rewrite (startswith_inv "s3://" s Hs), parse_s3_path_scheme in H.
  destruct (split_one_inv "/" (PyStr.slice_from (String.length "s3://") s))
    as [[Hsp Hc] | (b' & k' & Hsp & Hc & _)]; rewrite Hsp in H;
    now injection H as <- _.
Qed.

(** X11. Every path [list_csv_files_in_s3] returns is [s3://bucket/key]
    for the bucket the listing was asked for and a key ending in [.csv]
    whatever the case, and [parse_s3_path] takes it back to that bucket and
    that key: what the listing returns can be handed to a download or a
    read as it is. *)
Theorem listed_paths_parse_back (E : Env) (w : World) (s3_path : string)
    (csv_files : list string) :
  (list_csv_files_in_s3 E s3_path w).1 = Val csv_files →
  ∀ file, In file csv_files →
    ∃ b p key,
      parse_s3_path s3_path = Val (b, p)
      ∧ file = "s3://" +:+ b +:+ "/" +:+ key
      ∧ parse_s3_path file = Val (b, key)
      ∧ PyStr.endswith (PyStr.lower key) ".csv" = true.
Proof.
  destruct (list_csv_files_in_s3 E s3_path w) as [r w'] eqn:Hrun. simpl.
  intros -> file Hin.
  assert (Hne : csv_files ≠ []) by (intros ->; destruct Hin).
  rewrite list_eq in Hrun. apply try_std_val_inv in Hrun; [| exact Hne].
  unfold list_csv_files_in_s3_try, client, list_objects_v2 in Hrun.
  apply bind_val_inv in Hrun as ([b p] & w1 & Hp & Hrun).
  apply lift_val_inv in Hp as [Hp ->].
  apply bind_val_inv in Hrun as (u1 & w2 & _ & Hrun).
  apply bind_val_inv in Hrun as (u2 & w3 & _ & Hrun).
  apply bind_val_inv in Hrun as (response & w4 & _ & Hrun).
  apply mret_val_inv in Hrun as [-> _].
  destruct (Contents response) as [objs|]; [| destruct Hin].
  rewrite list_loop in Hin. simpl in Hin. unfold spec_listing in Hin.
  apply in_map_iff in Hin as (key & <- & Hkey).
  apply filter_In in Hkey as [_ Hcsv].
  exists b, p, key. repeat split; [exact Hp | | exact Hcsv].
  apply parse_with_key. exact (parse_bucket_no_sep _ _ _ Hp).
Qed.

Lemma listed_paths_parse_back_witness :
  (list_csv_files_in_s3 (env_ok ["a.csv"; "b.txt"; "C.CSV"] "")
     "s3://bucket/p/" world_empty).1
  = Val ["s3://bucket/a.csv"; "s3://bucket/C.CSV"]
  ∧ In "s3://bucket/C.CSV" ["s3://bucket/a.csv"; "s3://bucket/C.CSV"]
  ∧ ∃ b p key,
      parse_s3_path "s3://bucket/p/" = Val (b, p)
      ∧ "s3://bucket/C.CSV" = "s3://" +:+ b +:+ "/" +:+ key
      ∧ parse_s3_path "s3://bucket/C.CSV" = Val (b, key)
      ∧ PyStr.endswith (PyStr.lower key) ".csv" = true.
Proof.
  split; [reflexivity |]. split; [right; left; reflexivity |].
  apply (listed_paths_parse_back (env_ok ["a.csv"; "b.txt"; "C.CSV"] "")
           world_empty "s3://bucket/p/"
           ["s3://bucket/a.csv"; "s3://bucket/C.CSV"]).
  - reflexivity.
  - right; left; reflexivity.
Defined.

(** ** Every failure is logged *)

Lemma li_mret {A : Type} (a : A) : logs_info (mret a : M A).
Proof. intros w. exists []. now rewrite app_nil_r. Qed.

Lemma li_bind {A B : Type} (m : M A) (k : A → M B) :
  logs_info m → (∀ a, logs_info (k a)) → logs_info (m ≫= k).
Proof.
  intros Hm Hk w. unfold mbind, M_bind.
  destruct (Hm w) as (i1 & H1 & Hi1).
  destruct (m w) as [[a|e] w1]; simpl in *; [| now exists i1].
  destruct (Hk a w1) as (i2 & H2 & Hi2).
  exists (i1 ++ i2). rewrite H2, H1, <- app_assoc. split; [reflexivity |].
  rewrite forallb_app. now rewrite Hi1, Hi2.
Qed.

Lemma li_lift {A : Type} (r : Res A) : logs_info (lift r).
Proof. intros w. exists []. now rewrite app_nil_r. Qed.

Lemma li_logger (msg : string) : logs_info (logger INFO msg).
Proof. intros w. now exists [(INFO, msg)]. Qed.

Lemma li_exists (p : string) : logs_info (os_path_exists p).
Proof. intros w. exists []. now rewrite app_nil_r. Qed.

Lemma li_call_unit (c : Call) (answer : World → option exn)
    (effect : World → World) :
  (∀ w, log (effect w) = log w) → logs_info (call_unit c answer effect).
Proof.
  intros He w. exists []. rewrite app_nil_r. unfold call_unit.
  split; [| reflexivity].
  destruct (answer w); simpl; [reflexivity | now rewrite He].
Qed.

Lemma li_call_val {A : Type} (c : Call) (answer : World → Res A) :
  logs_info (call_val c answer).
Proof. intros w. exists []. now rewrite app_nil_r. Qed.

Lemma ro_mret {A : Type} (P : A → Prop) (a : A) :
  P a → returns_only P (mret a : M A).
Proof. intros Ha w b w' H. now apply mret_val_inv in H as [-> _]. Qed.

Lemma ro_bind {A B : Type} (P : B → Prop) (m : M A) (k : A → M B) :
  (∀ a, returns_only P (k a)) → returns_only P (m ≫= k).
Proof.
  intros Hk w b w' H. apply bind_val_inv in H as (a & w1 & _ & H).
  exact (Hk a w1 b w' H).
Qed.

Lemma try_std_log_outcome {A : Type} (body : M A) (marker : A)
    (what : string) (w : World) :
  logs_info body → returns_only (λ a, a ≠ marker) body →
  log_outcome ((try_except body (std_handlers marker what) w).1 = Val marker)
    w (try_except body (std_handlers marker what) w).2.
Proof.
  intros Hli Hro. rewrite try_except_std.
  destruct (Hli w) as (infos & Hlog & Hinfos). exists infos.
  split; [exact Hinfos |].
  destruct (body w) as [[a|e] w1] eqn:Hb; simpl in *.
  - right. split; [| exact Hlog]. intros [= ->]. now apply (Hro w marker w1).
  - unfold handled.
    destruct (is_ClientError e); [| destruct (is_Exception e)]; simpl.
    + left. split; [reflexivity |]. eexists. now rewrite Hlog, <- app_assoc.
    + left. split; [reflexivity |]. eexists. now rewrite Hlog, <- app_assoc.
    + right. split; [discriminate | exact Hlog].
Qed.

Ltac log_steps :=
  repeat first
    [ apply li_bind; [| intros ?]
    | apply li_mret | apply li_logger | apply li_lift | apply li_exists
    | apply li_call_val | apply li_call_unit; reflexivity
    | match goal with
      | x : (_ * _)%type |- _ => destruct x
      | |- logs_info (if ?c then _ else _) => destruct c
      end ].

Ltac value_steps :=
  repeat first
    [ apply ro_bind; intros ?
    | apply ro_mret; discriminate
    | match goal with x : (_ * _)%type |- _ => destruct x end ].

(** X12. The log tells a failure from a success.  An upload, a download,
    a read or a write appends [INFO] records only, then exactly one [ERROR]
    record if and only if it returns its failure marker ([False] or
    [None]). *)
Theorem failure_is_logged (E : Env) (w : World) :
  (∀ l s, log_outcome ((upload_csv_to_s3 E l s w).1 = Val false)
            w (upload_csv_to_s3 E l s w).2)
  ∧ (∀ s d, log_outcome ((download_csv_from_s3 E s d w).1 = Val None)
              w (download_csv_from_s3 E s d w).2)
  ∧ (∀ s, log_outcome ((read_csv_from_s3 E s w).1 = Val None)
            w (read_csv_from_s3 E s w).2)
  ∧ (∀ df s, log_outcome ((write_dataframe_to_s3 E df s w).1 = Val false)
               w (write_dataframe_to_s3 E df s w).2).
Proof.
  repeat split.
  - intros l s. rewrite upload_eq.
    destruct (PyStr.truthy l && bool_decide (l ∈ fs w)).
    + apply try_std_log_outcome.
      * unfold upload_csv_to_s3_try, client, upload_file. log_steps.
      * unfold upload_csv_to_s3_try. value_steps.
    + exists []. split; [reflexivity |]. left. split; [reflexivity |].
      now eexists.
  - intros s d. rewrite download_eq. apply try_std_log_outcome.
    + unfold download_csv_from_s3_try, os_makedirs, client, download_file.
      log_steps.
    + unfold download_csv_from_s3_try. value_steps.
  - intros s. rewrite read_eq. apply try_std_log_outcome.
    + unfold read_csv_from_s3_try, client, get_object. log_steps.
    + unfold read_csv_from_s3_try. value_steps.
  - intros df s. rewrite write_eq. apply try_std_log_outcome.
    + unfold write_dataframe_to_s3_try, client, put_object. log_steps.
    + unfold write_dataframe_to_s3_try. value_steps.
Qed.

(** ** [main], on input that cannot work *)

(** X13. What the command line does with input that fails before any
    call: [--upload] of a missing file exits with 1; [--download] from a
    path without the scheme exits with 1 and makes no directory; [--list]
    of such a path prints nothing and still exits with 0.  In the three
    cases no collaborator is called. *)
Theorem main_fails_before_any_call (E : Env) (args : Namespace) (w : World) :
  (args_upload args = true →
   (os_path_exists (args_source args) w).1 = Val false →
   exit_status (main E args w).1 = 1%Z
   ∧ calls (main E args w).2 = calls w)
  ∧ (args_upload args = false → args_download args = true →
     PyStr.startswith (args_source args) "s3://" = false →
     exit_status (main E args w).1 = 1%Z
     ∧ calls (main E args w).2 = calls w
     ∧ fs (main E args w).2 = fs w)
  ∧ (args_upload args = false → args_download args = false →
     args_list args = true →
     PyStr.startswith (args_source args) "s3://" = false →
     exit_status (main E args w).1 = 0%Z
     ∧ calls (main E args w).2 = calls w
     ∧ stdout (main E args w).2 = stdout w).
Proof.
  split; [| split].
  - intros Hu Hex. injection Hex as Hex.
    unfold main. rewrite Hu. unfold mbind, M_bind.
    rewrite upload_eq, Hex. now split.
  - intros Hu Hd Hs. unfold main. rewrite Hu, Hd. unfold mbind, M_bind.
    rewrite download_eq. unfold download_csv_from_s3_try.
    rewrite (bad_path_try _ None _ _ w Hs). now repeat split.
  - intros Hu Hd Hl Hs. unfold main. rewrite Hu, Hd, Hl. unfold mbind, M_bind.
    rewrite list_eq. unfold list_csv_files_in_s3_try.
    rewrite (bad_path_try _ [] _ _ w Hs). now repeat split.
Qed.

Lemma main_fails_before_any_call_witness :
  ((os_path_exists "data.csv" world_empty).1 = Val false
   ∧ exit_status
       (main (env_ok [] "") (mkNamespace true false false "data.csv" "s3://b/")
          world_empty).1 = 1%Z
   ∧ calls
       (main (env_ok [] "") (mkNamespace true false false "data.csv" "s3://b/")
          world_empty).2 = calls world_empty)
  ∧ (PyStr.startswith "b/data.csv" "s3://" = false
     ∧ exit_status
         (main (env_ok [] "") (mkNamespace false true false "b/data.csv" "out")
            world_empty).1 = 1%Z
     ∧ calls
         (main (env_ok [] "") (mkNamespace false true false "b/data.csv" "out")
            world_empty).2 = calls world_empty
     ∧ fs
         (main (env_ok [] "") (mkNamespace false true false "b/data.csv" "out")
            world_empty).2 = fs world_empty)
  ∧ (PyStr.startswith "b/" "s3://" = false
     ∧ exit_status
         (main (env_ok ["a.csv"] "") (mkNamespace false false true "b/" "")
            world_empty).1 = 0%Z
     ∧ calls
         (main (env_ok ["a.csv"] "") (mkNamespace false false true "b/" "")
            world_empty).2 = calls world_empty
     ∧ stdout
         (main (env_ok ["a.csv"] "") (mkNamespace false false true "b/" "")
            world_empty).2 = stdout world_empty).
Proof.
  split; [| split].
  - split; [reflexivity |].
    apply (proj1 (main_fails_before_any_call (env_ok [] "")
             (mkNamespace true false false "data.csv" "s3://b/") world_empty));
      reflexivity.
  - split; [reflexivity |].
    apply (proj1 (proj2 (main_fails_before_any_call (env_ok [] "")
             (mkNamespace false true false "b/data.csv" "out") world_empty)));
      reflexivity.
  - split; [reflexivity |].
    apply (proj2 (proj2 (main_fails_before_any_call (env_ok ["a.csv"] "")
             (mkNamespace false false true "b/" "") world_empty)));
      reflexivity.
Defined.

(** X14. Only a [--list] run prints: an [--upload] or a [--download] run
    leaves standard output as it was, whatever the backend does. *)
Theorem main_prints_only_listings (E : Env) (args : Namespace) (w : World) :
  args_upload args = true ∨ args_download args = true →
  stdout (main E args w).2 = stdout w.
Proof.
  intros Hflag. unfold main.
  destruct (args_upload args) eqn:Hu.
  - unfold mbind, M_bind.
    pose proof (upload_preserves stdout E (args_source args)
                  (args_destination args) (λ _ _, eq_refl) (λ _ _, eq_refl) w)
      as Hs.
    destruct (upload_csv_to_s3 E (args_source args) (args_destination args) w)
      as [[success|e] w1]; exact Hs.
  - destruct Hflag as [Hflag | Hd]; [discriminate |]. rewrite Hd.
    unfold mbind, M_bind.
    pose proof (download_preserves_stdout E (args_source args)
                  (args_destination args) w) as Hs.
    destruct (download_csv_from_s3 E (args_source args) (args_destination args) w)
      as [[local_file|e] w1]; exact Hs.
Qed.

Lemma main_prints_only_listings_witness :
  (args_upload (mkNamespace true false false "data.csv" "s3://bucket/dir/") = true
   ∨ args_download (mkNamespace true false false "data.csv" "s3://bucket/dir/")
     = true)
  ∧ stdout
      (main (env_ok [] "")
         (mkNamespace true false false "data.csv" "s3://bucket/dir/")
         world_data).2
    = stdout world_data.
Proof.
  split; [left; reflexivity |].
  apply (main_prints_only_listings (env_ok [] "")
           (mkNamespace true false false "data.csv" "s3://bucket/dir/")
           world_data).
  left; reflexivity.
Defined.

(** ** An upload, then a download of what was uploaded *)

Lemma rfind_no_sep (c : ascii) (s : string) :
  PyStr.contains c s = false → PyStr.rfind c s = (-1)%Z.
Proof.
  induction s as [|d s IH]; [reflexivity |]. simpl.
  intros H. apply orb_false_iff in H as [Hd Hs].
  now rewrite (IH Hs), Hd.
Qed.

Lemma basename_id (n : string) :
  PyStr.contains "/" n = false → posixpath.basename n = n.
Proof.
  intros H. unfold posixpath.basename. now rewrite (rfind_no_sep _ _ H).
Qed.

Lemma basename_after_sep (dir n : string) :
  PyStr.contains "/" n = false →
  posixpath.basename (dir +:+ "/" +:+ n) = n
  ∧ (0 ≤ PyStr.rfind "/" (dir +:+ "/" +:+ n))%Z.
Proof.
  intros Hn. unfold posixpath.basename.
  induction dir as [|d dir [IHb IHr]].
  - change ("" +:+ "/" +:+ n) with (String "/" n). simpl PyStr.rfind.
    rewrite (rfind_no_sep _ _ Hn). simpl. split; [reflexivity | lia].
  - rewrite append_cons. simpl PyStr.rfind.
    destruct (0 <=? PyStr.rfind "/" (dir +:+ "/" +:+ n))%Z eqn:H;
      [| apply Z.leb_gt in H; lia].
    split; [| lia].
    replace (Z.to_nat (PyStr.rfind "/" (dir +:+ "/" +:+ n) + 1 + 1))
      with (S (Z.to_nat (PyStr.rfind "/" (dir +:+ "/" +:+ n) + 1))) by lia.
    exact IHb.
Qed.

Lemma endswith_sep_inv (p : string) :
  PyStr.endswith p "/" = true → ∃ dir, p = dir +:+ "/".
Proof.
  unfold PyStr.endswith. intros H. apply andb_true_iff in H as [_ H].
  apply String.eqb_eq in H.
  destruct (slice_from_suffix (String.length p - String.length "/") p)
    as [dir Hdir].
  exists dir. now rewrite H in Hdir.
Qed.

(** The key an upload builds ends with the base name, and its own base
    name is that base name. *)
Lemma upload_key_basename (p l : string) :
  posixpath.basename
    ((if PyStr.truthy p && negb (PyStr.endswith p "/") then p +:+ "/" else p)
     +:+ posixpath.basename l)
  = posixpath.basename l.
Proof.
  pose proof (basename_no_sep l) as Hn.
  destruct p as [|c p]; [now apply basename_id |].
  simpl PyStr.truthy. rewrite andb_true_l.
  destruct (PyStr.endswith (String c p) "/") eqn:He; simpl negb; cbv iota.
  - destruct (endswith_sep_inv _ He) as [dir ->].
    rewrite app_string_assoc. now apply basename_after_sep.
  - rewrite app_string_assoc. now apply basename_after_sep.
Qed.

Lemma upload_run_inv (E : Env) (w w' : World) (l s : string) :
  upload_csv_to_s3 E l s w = (Val true, w') →
  ∃ b p, parse_s3_path s = Val (b, p)
    ∧ last (calls w')
      = Some (CallUploadFile l b
                ((if PyStr.truthy p && negb (PyStr.endswith p "/")
                  then p +:+ "/" else p) +:+ posixpath.basename l)).
Proof.
  intros Hrun. rewrite upload_eq in Hrun.
  destruct (PyStr.truthy l && bool_decide (l ∈ fs w)); [| discriminate].
  apply try_std_val_inv in Hrun; [| discriminate].
  unfold upload_csv_to_s3_try, client, upload_file in Hrun.
  apply bind_val_inv in Hrun as ([b p] & w1 & Hp & Hrun).
  apply lift_val_inv in Hp as [Hp ->].
  apply bind_val_inv in Hrun as (u1 & w2 & _ & Hrun).
  apply bind_val_inv in Hrun as (u2 & w3 & _ & Hrun).
  apply bind_val_inv in Hrun as (u3 & w4 & Hu & Hrun).
  apply call_unit_val_inv in Hu as [_ ->].
  apply bind_val_inv in Hrun as (u4 & w5 & Hl & Hrun).
  apply logger_val_inv in Hl as ->.
  apply mret_val_inv in Hrun as [_ ->].
  exists b, p. split; [exact Hp |]. unfold id. simpl. apply last_snoc.
Qed.

Lemma download_run_inv (E : Env) (w w' : World) (s d file : string) :
  download_csv_from_s3 E s d w = (Val (Some file), w') →
  ∃ b k, parse_s3_path s = Val (b, k)
    ∧ PyStr.truthy d = true
    ∧ file = posixpath.join d (posixpath.basename k).
Proof.
  intros Hrun. rewrite download_eq in Hrun.
  apply try_std_val_inv in Hrun; [| discriminate].
  unfold download_csv_from_s3_try in Hrun.
  apply bind_val_inv in Hrun as ([b k] & w1 & Hp & Hrun).
  apply lift_val_inv in Hp as [Hp ->].
  apply bind_val_inv in Hrun as (found & w2 & Hex & Hrun).
  injection Hex as <- <-.
  apply bind_val_inv in Hrun as (u & w3 & Hmk & Hrun).
  apply bind_val_inv in Hrun as (u1 & w4 & _ & Hrun).
  apply bind_val_inv in Hrun as (u2 & w5 & _ & Hrun).
  apply bind_val_inv in Hrun as (u3 & w6 & _ & Hrun).
  apply bind_val_inv in Hrun as (u4 & w7 & _ & Hrun).
  apply mret_val_inv in Hrun as [[= ->] _].
  exists b, k. split; [exact Hp |]. split; [| reflexivity].
  destruct (PyStr.truthy d) eqn:Hd; [reflexivity |].
  simpl in Hmk. apply os_makedirs_val_inv in Hmk as [Ht _]. congruence.
Qed.

(** X15. Names survive the round trip.  When an upload of a local file
    succeeded with [upload_file] called for bucket [b] and key [key], a
    later download of [s3://b/key] into a directory that returns a path
    returns that directory, a ['/'] if it lacks one, and the base name of
    the file that was uploaded. *)
Theorem upload_then_download_keeps_name (E E' : Env) (w w1 w' w2 : World)
    (local_file_path s3_path b key local_directory file : string) :
  upload_csv_to_s3 E local_file_path s3_path w = (Val true, w1) →
  last (calls w1) = Some (CallUploadFile local_file_path b key) →
  download_csv_from_s3 E' ("s3://" +:+ b +:+ "/" +:+ key) local_directory w'
  = (Val (Some file), w2) →
  file = local_directory
         +:+ (if PyStr.endswith local_directory "/" then "" else "/")
         +:+ posixpath.basename local_file_path.
Proof.
  intros Hup Hlast Hdown.
  apply upload_run_inv in Hup as (b0 & p & Hp & Hlast0).
  rewrite Hlast0 in Hlast. injection Hlast as -> <-.
  apply download_run_inv in Hdown as (b' & k' & Hp' & Ht & ->).
  rewrite (parse_with_key b _ (parse_bucket_no_sep _ _ _ Hp)) in Hp'.
  injection Hp' as <- <-.
  rewrite (join_basename _ _ Ht). now rewrite upload_key_basename.
Qed.

Lemma upload_then_download_keeps_name_witness :
  upload_csv_to_s3 (env_ok [] "") "data.csv" "s3://bucket/dir" world_data
  = (Val true,
     (upload_csv_to_s3 (env_ok [] "") "data.csv" "s3://bucket/dir" world_data).2)
  ∧ last (calls (upload_csv_to_s3 (env_ok [] "") "data.csv" "s3://bucket/dir"
                   world_data).2)
    = Some (CallUploadFile "data.csv" "bucket" "dir/data.csv")
  ∧ download_csv_from_s3 (env_ok [] "")
      ("s3://" +:+ "bucket" +:+ "/" +:+ "dir/data.csv") "out" world_empty
    = (Val (Some "out/data.csv"),
       (download_csv_from_s3 (env_ok [] "")
          ("s3://" +:+ "bucket" +:+ "/" +:+ "dir/data.csv") "out"
          world_empty).2)
  ∧ "out/data.csv"
    = "out" +:+ (if PyStr.endswith "out" "/" then "" else "/")
            +:+ posixpath.basename "data.csv".
Proof.
  split; [reflexivity |]. split; [reflexivity |]. split; [reflexivity |].
  eapply (upload_then_download_keeps_name (env_ok [] "") (env_ok [] "")
            world_data _ world_empty _
            "data.csv" "s3://bucket/dir" "bucket" "dir/data.csv" "out"
            "out/data.csv"); reflexivity.
Defined.
